(** * VSK insurance API handler (apivsk.js): shallow embedding and properties

    - Part I, [Js]: the fragment of the JavaScript value model the handler
      relies on (binary64 numbers, truthiness, [Number(..)], string
      conversion, property access, object spread, [JSON.stringify],
      [Date]).
    - Part II, [Apivsk]: the functions of [src/apivsk.js], written over an
      explicit world (environment, module state, scripted replies of the
      external collaborators, trace of external calls, database rows).
    - Parts III and IV: sample worlds, and the vocabulary in which the
      properties are stated.
    - Parts V and VI: the properties of the orchestration workflow. *)

From Stdlib Require Import ZArith List String Ascii Bool Lia.
From Stdlib Require Import SpecFloat.
Import ListNotations.

Set Warnings "-register-all".

Local Open Scope string_scope.
Local Open Scope list_scope.
Local Open Scope Z_scope.

(* ================================================================== *)
(** * Part I: JavaScript values *)
(* ================================================================== *)

Module Js.

(** ** Numbers: IEEE 754 binary64 *)

Definition Num : Type := spec_float.

Definition prec : Z := 53.
Definition emax : Z := 1024.

Definition NaN : Num := S754_nan.

(** The Number value of a mathematical integer (round to nearest, ties to
    even). *)
Definition num_of_Z (z : Z) : Num := binary_normalize prec emax z 0 false.

(** Number of decimal digits of a positive integer, by repeated division. *)
Fixpoint digits10_fuel (fuel : nat) (z : Z) : Z :=
  match fuel with
  | O => 0
  | S f => if z <? 10 then 1 else 1 + digits10_fuel f (z / 10)
  end.

Definition digits10 (z : Z) : Z :=
  digits10_fuel (S (Z.to_nat (Z.log2 z))) z.

(** The Number value of the decimal [n * 10^k] with [n >= 0], correctly
    rounded.  Magnitudes that are certainly above the largest finite double
    or below half the smallest subnormal are decided without building the
    power of ten. *)
Definition num_of_decimal (neg : bool) (n k : Z) : Num :=
  match n with
  | Zpos p =>
      let d := digits10 n in
      if 310 <? d + k then S754_infinity neg
      else if d + k <? -330 then S754_zero neg
      else
        match k with
        | Zneg e =>
            let '(q, e', l) :=
              SFdiv_core_binary prec emax n 0 (10 ^ Zpos e) 0 in
            binary_round_aux prec emax neg q e' l
        | _ =>
            match n * 10 ^ k with
            | Zpos m => binary_round prec emax neg m 0
            | _ => S754_zero neg
            end
        end
  | _ => S754_zero neg
  end.

Definition num_is_nan (x : Num) : bool :=
  match x with S754_nan => true | _ => false end.

Definition num_is_zero (x : Num) : bool :=
  match x with S754_zero _ => true | _ => false end.

(** ToBoolean on a Number: [+0], [-0] and [NaN] are falsy. *)
Definition num_truthy (x : Num) : bool :=
  negb (num_is_zero x || num_is_nan x).

(** ** Number::toString (radix 10)

    The digits are the shortest decimal that converts back to the number;
    among the decimals of that length the closest one is taken, the even
    one on a tie. *)

Fixpoint digits_of_fuel (fuel : nat) (z : Z) (acc : string) : string :=
  match fuel with
  | O => acc
  | S f =>
      let c := ascii_of_nat (48 + Z.to_nat (z mod 10)) in
      if z <? 10 then String c acc
      else digits_of_fuel f (z / 10) (String c acc)
  end.

(** Decimal digits of a non-negative integer. *)
Definition digits_of (z : Z) : string :=
  digits_of_fuel (S (Z.to_nat (Z.log2 z))) z EmptyString.

Fixpoint zeros (n : nat) : string :=
  match n with
  | O => EmptyString
  | S m => String "0" (zeros m)
  end.

(** A positive finite number as the exact fraction [P / Q]. *)
Definition ratio_of (m : positive) (e : Z) : Z * Z :=
  match e with
  | Zneg d => (Zpos m, 2 ^ Zpos d)
  | _ => (Zpos m * 2 ^ e, 1)
  end.

(** Smallest [j >= 0] with [P * 10^(j+1) >= Q], for [P / Q < 1]. *)
Fixpoint lead_zeros (fuel : nat) (P Q : Z) (j : Z) : Z :=
  match fuel with
  | O => j
  | S f => if Q <=? P * 10 then j else lead_zeros f (P * 10) Q (j + 1)
  end.

(** The decimal exponent [n] with [10^(n-1) <= P/Q < 10^n]. *)
Definition dec_exponent (P Q : Z) : Z :=
  if Q <=? P then digits10 (P / Q)
  else - lead_zeros 400 P Q 0.

(** The candidate with [k] digits: [Some (s, n)] when some decimal
    [s * 10^(n-k)] with [10^(k-1) <= s < 10^k] converts back to the
    number. *)
Definition candidate (x : Num) (P Q n0 k : Z) : option (Z * Z) :=
  let t := n0 - k in
  let num := if 0 <=? t then P else P * 10 ^ (- t) in
  let den := if 0 <=? t then Q * 10 ^ t else Q in
  let lo := num / den in
  let r := num mod den in
  let hi := lo + 1 in
  let back (s : Z) := SFeqb (num_of_decimal false s t) x in
  let lo_ok := (10 ^ (k - 1) <=? lo) && back lo in
  let hi_ok := back hi in
  let norm (s : Z) := if s =? 10 ^ k then (10 ^ (k - 1), n0 + 1) else (s, n0) in
  match lo_ok, hi_ok with
  | true, true =>
      match 2 * r ?= den with
      | Lt => Some (norm lo)
      | Gt => Some (norm hi)
      | Eq => Some (norm (if Z.even lo then lo else hi))
      end
  | true, false => Some (norm lo)
  | false, true => Some (norm hi)
  | false, false => None
  end.

Fixpoint shortest (fuel : nat) (x : Num) (P Q n0 k : Z) : Z * Z * Z :=
  match fuel with
  | O => (0, n0, k)
  | S f =>
      match candidate x P Q n0 k with
      | Some (s, n) => (s, n, k)
      | None => shortest f x P Q n0 (k + 1)
      end
  end.

Definition exp_suffix (n : Z) : string :=
  String "e" (String (if 0 <=? n - 1 then "+"%char else "-"%char)
                     (digits_of (Z.abs (n - 1)))).

Definition format_pos (m : positive) (e : Z) : string :=
  let '(P, Q) := ratio_of m e in
  let n0 := dec_exponent P Q in
  let '(s, n, k) := shortest 17 (S754_finite false m e) P Q n0 1 in
  let ds := digits_of s in
  if (k <=? n) && (n <=? 21) then
    ds ++ zeros (Z.to_nat (n - k))
  else if (0 <? n) && (n <=? 21) then
    substring 0 (Z.to_nat n) ds ++ "." ++
    substring (Z.to_nat n) (Z.to_nat (k - n)) ds
  else if (-6 <? n) && (n <=? 0) then
    "0." ++ zeros (Z.to_nat (- n)) ++ ds
  else if k =? 1 then
    ds ++ exp_suffix n
  else
    substring 0 1 ds ++ "." ++ substring 1 (Z.to_nat (k - 1)) ds
      ++ exp_suffix n.

Definition num_to_string (x : Num) : string :=
  match x with
  | S754_nan => "NaN"
  | S754_zero _ => "0"
  | S754_infinity false => "Infinity"
  | S754_infinity true => "-Infinity"
  | S754_finite false m e => format_pos m e
  | S754_finite true m e => "-" ++ format_pos m e
  end.

(** ** Values

    Strings are kept as their UTF-8 bytes.  [VBuffer] is a Node [Buffer]
    (the body of an [arraybuffer] response).  Objects keep their own
    enumerable properties in property order. *)

Inductive Value : Type :=
  | VUndefined
  | VNull
  | VBool (b : bool)
  | VNum (x : Num)
  | VStr (s : string)
  | VArr (elems : list Value)
  | VObj (props : list (string * Value))
  | VBuffer (bytes : string).

(** An [Error] object: [err_response] is the [response] of an axios error
    (upstream status and body), absent on network errors and timeouts. *)
Record Error : Type := mkError {
  err_name : string;
  err_message : string;
  err_response : option (Z * Value)
}.

(** Completion of an evaluation: a value, or a thrown error (a rejected
    promise for an async function). *)
Inductive Result (A : Type) : Type :=
  | Returned (a : A)
  | Thrown (e : Error).

Arguments Returned {A} a.
Arguments Thrown {A} e.

Definition new_Error (msg : string) : Error := mkError "Error" msg None.
Definition new_TypeError (msg : string) : Error := mkError "TypeError" msg None.

(** ToBoolean. *)
Definition to_boolean (v : Value) : bool :=
  match v with
  | VUndefined | VNull => false
  | VBool b => b
  | VNum x => num_truthy x
  | VStr s => negb (String.eqb s EmptyString)
  | VArr _ | VObj _ | VBuffer _ => true
  end.

(** [a || b]. *)
Definition or_else (a b : Value) : Value := if to_boolean a then a else b.

(** ** StringToNumber *)

Definition code (c : ascii) : nat := nat_of_ascii c.

(** Length in bytes of the white space or line terminator at the head of
    the string, 0 when there is none. *)
Definition ws_len (s : string) : nat :=
  match s with
  | String a r =>
      let ca := code a in
      if ((9 <=? ca) && (ca <=? 13) || (ca =? 32))%nat then 1%nat
      else
        match r with
        | String b r' =>
            let cb := code b in
            if ((ca =? 194) && (cb =? 160))%nat then 2%nat
            else
              match r' with
              | String c _ =>
                  let cc := code c in
                  if ((ca =? 225) && (cb =? 154) && (cc =? 128)
                      || (ca =? 226) && (cb =? 128)
                           && ((128 <=? cc) && (cc <=? 138)
                               || (cc =? 168) || (cc =? 169) || (cc =? 175))
                      || (ca =? 226) && (cb =? 129) && (cc =? 159)
                      || (ca =? 227) && (cb =? 128) && (cc =? 128)
                      || (ca =? 239) && (cb =? 187) && (cc =? 191))%nat
                  then 3%nat else 0%nat
              | EmptyString => 0%nat
              end
        | EmptyString => 0%nat
        end
  | EmptyString => 0%nat
  end.

Definition drop (n : nat) (s : string) : string :=
  substring n (String.length s - n) s.

Fixpoint skip_ws (fuel : nat) (s : string) : string :=
  match fuel with
  | O => s
  | S f =>
      match ws_len s with
      | O => s
      | n => skip_ws f (drop n s)
      end
  end.

(** The bytes up to the next white space, and what follows. *)
Fixpoint take_token (s : string) : string * string :=
  match s with
  | EmptyString => (EmptyString, EmptyString)
  | String c r =>
      match ws_len s with
      | O => let '(t, rest) := take_token r in (String c t, rest)
      | _ => (EmptyString, s)
      end
  end.

Definition digit_val (radix : Z) (c : ascii) : option Z :=
  let n := Z.of_nat (code c) in
  let v :=
    if (48 <=? n) && (n <=? 57) then n - 48
    else if (97 <=? n) && (n <=? 102) then n - 87
    else if (65 <=? n) && (n <=? 70) then n - 55
    else 99 in
  if v <? radix then Some v else None.

(** Value of a string made only of digits of the radix ([acc] on the empty
    string). *)
Fixpoint digits_value (radix : Z) (s : string) (acc : Z) : option Z :=
  match s with
  | EmptyString => Some acc
  | String c r =>
      match digit_val radix c with
      | Some d => digits_value radix r (acc * radix + d)
      | None => None
      end
  end.

(** The leading decimal digits and the rest. *)
Fixpoint span_digits (s : string) : string * string :=
  match s with
  | EmptyString => (EmptyString, EmptyString)
  | String c r =>
      match digit_val 10 c with
      | Some _ => let '(d, rest) := span_digits r in (String c d, rest)
      | None => (EmptyString, s)
      end
  end.

Definition radix_literal (radix : Z) (ds : string) : Num :=
  match ds with
  | EmptyString => NaN
  | _ => match digits_value radix ds 0 with
         | Some z => num_of_Z z
         | None => NaN
         end
  end.

Definition split_sign (s : string) : bool * string :=
  match s with
  | String "+" r => (false, r)
  | String "-" r => (true, r)
  | _ => (false, s)
  end.

(** The exponent part: [Some 0] when absent, [None] when malformed. *)
Definition exponent_part (s : string) : option Z :=
  match s with
  | EmptyString => Some 0
  | String c r =>
      if (code c =? 101)%nat || (code c =? 69)%nat then
        let '(neg, ds) := split_sign r in
        match ds with
        | EmptyString => None
        | _ => match digits_value 10 ds 0 with
               | Some z => Some (if neg then - z else z)
               | None => None
               end
        end
      else None
  end.

Definition decimal_literal (neg : bool) (s : string) : Num :=
  let '(ip, r1) := span_digits s in
  let '(fp, r2) :=
    match r1 with
    | String "." r => span_digits r
    | _ => (EmptyString, r1)
    end in
  match (ip ++ fp)%string with
  | EmptyString => NaN
  | ds =>
      match digits_value 10 ds 0, exponent_part r2 with
      | Some n, Some e =>
          num_of_decimal neg n (e - Z.of_nat (String.length fp))
      | _, _ => NaN
      end
  end.

Definition numeric_literal (s : string) : Num :=
  match s with
  | EmptyString => S754_zero false
  | String "0" (String "x" r) | String "0" (String "X" r) => radix_literal 16 r
  | String "0" (String "o" r) | String "0" (String "O" r) => radix_literal 8 r
  | String "0" (String "b" r) | String "0" (String "B" r) => radix_literal 2 r
  | _ =>
      let '(neg, body) := split_sign s in
      if String.eqb body "Infinity" then S754_infinity neg
      else decimal_literal neg body
  end.

Definition string_to_number (s : string) : Num :=
  let n := String.length s in
  let '(tok, rest) := take_token (skip_ws n s) in
  match skip_ws n rest with
  | EmptyString => numeric_literal tok
  | _ => NaN
  end.

(** ** ToString and ToNumber *)

Definition join_with (sep : string) (parts : list string) : string :=
  match parts with
  | [] => EmptyString
  | p :: ps => fold_left (fun acc q => acc ++ sep ++ q)%string ps p
  end.

(** ToString.  An array is the join of its elements with a comma
    ([null] and [undefined] elements give the empty string), any other
    object is ["[object Object]"], a Buffer is its content. *)
Fixpoint to_string (v : Value) : string :=
  match v with
  | VUndefined => "undefined"
  | VNull => "null"
  | VBool true => "true"
  | VBool false => "false"
  | VNum x => num_to_string x
  | VStr s => s
  | VArr l =>
      join_with ","
        (map (fun e => match e with
                       | VUndefined | VNull => EmptyString
                       | _ => to_string e
                       end) l)
  | VObj _ => "[object Object]"
  | VBuffer b => b
  end.

(** ToNumber, the conversion behind [Number(v)]: an object is first
    converted to a primitive, which for arrays, plain objects and buffers
    is their string. *)
Definition to_number (v : Value) : Num :=
  match v with
  | VUndefined => NaN
  | VNull => S754_zero false
  | VBool true => num_of_Z 1
  | VBool false => S754_zero false
  | VNum x => x
  | VStr s => string_to_number s
  | VArr _ | VObj _ | VBuffer _ => string_to_number (to_string v)
  end.

(** [Number(v)]. *)
Definition Number (v : Value) : Value := VNum (to_number v).

(** ** Property access

    [get v k] is [v.k] for the property names the handler uses: an own
    property of an object when present, [undefined] otherwise, and a
    TypeError on [undefined] and [null]. *)

Fixpoint lookup (k : string) (props : list (string * Value)) : option Value :=
  match props with
  | [] => None
  | (k', v) :: rest => if String.eqb k k' then Some v else lookup k rest
  end.

Definition cannot_read (what k : string) : Error :=
  new_TypeError ("Cannot read properties of " ++ what ++ " (reading '"
                 ++ k ++ "')").

Definition get (v : Value) (k : string) : Result Value :=
  match v with
  | VUndefined => Thrown (cannot_read "undefined" k)
  | VNull => Thrown (cannot_read "null" k)
  | VObj props =>
      match lookup k props with
      | Some x => Returned x
      | None => Returned VUndefined
      end
  | _ => Returned VUndefined
  end.

(** [v?.k]. *)
Definition get_opt (v : Value) (k : string) : Value :=
  match get v k with
  | Returned x => x
  | Thrown _ => VUndefined
  end.

(** ** Object literals and spread *)

(** Defining or overwriting an own property: an existing key keeps its
    place, a new key goes last. *)
Fixpoint set_prop (props : list (string * Value)) (k : string) (v : Value)
  : list (string * Value) :=
  match props with
  | [] => [(k, v)]
  | (k', v') :: rest =>
      if String.eqb k k' then (k, v) :: rest
      else (k', v') :: set_prop rest k v
  end.

Fixpoint indexed {A : Type} (f : A -> Value) (i : Z) (l : list A)
  : list (string * Value) :=
  match l with
  | [] => []
  | a :: rest => (digits_of i, f a) :: indexed f (i + 1) rest
  end.

(** The own enumerable properties copied by [{...v}]: none for
    [undefined], [null], booleans and numbers; the indexed elements of an
    array or a buffer; the indexed characters of a string (one per byte:
    exact on ASCII text). *)
Definition spread (v : Value) : list (string * Value) :=
  match v with
  | VObj props => props
  | VArr l => indexed (fun e => e) 0 l
  | VStr s =>
      indexed (fun c => VStr (String c EmptyString)) 0 (list_ascii_of_string s)
  | VBuffer b =>
      indexed (fun c => VNum (num_of_Z (Z.of_nat (code c)))) 0
              (list_ascii_of_string b)
  | _ => []
  end.

(** ** JSON.stringify *)

Definition hex_digit (n : nat) : ascii :=
  ascii_of_nat (if (n <? 10)%nat then 48 + n else 87 + n).

Definition dquote : ascii := ascii_of_nat 34.
Definition backslash : ascii := ascii_of_nat 92.

Definition escape_char (c : ascii) : string :=
  let n := code c in
  let esc (x : ascii) := String backslash (String x EmptyString) in
  if (n =? 34)%nat then esc dquote
  else if (n =? 92)%nat then esc backslash
  else if (n =? 8)%nat then esc "b"%char
  else if (n =? 12)%nat then esc "f"%char
  else if (n =? 10)%nat then esc "n"%char
  else if (n =? 13)%nat then esc "r"%char
  else if (n =? 9)%nat then esc "t"%char
  else if (n <? 32)%nat then
    String backslash
      ("u00" ++ String (hex_digit (n / 16))
                  (String (hex_digit (n mod 16)) EmptyString))
  else String c EmptyString.

Fixpoint escape_string (s : string) : string :=
  match s with
  | EmptyString => EmptyString
  | String c r => (escape_char c ++ escape_string r)%string
  end.

Definition quote_json (s : string) : string :=
  String dquote (escape_string s ++ String dquote EmptyString).

(** The JSON text of a value, [None] where [JSON.stringify] gives
    [undefined].  Properties whose value is [undefined] are left out, an
    [undefined] array element is written [null], a non-finite number is
    written [null], a Buffer is written through its [toJSON]. *)
Fixpoint stringify (v : Value) : option string :=
  match v with
  | VUndefined => None
  | VNull => Some "null"
  | VBool true => Some "true"
  | VBool false => Some "false"
  | VNum (S754_nan) | VNum (S754_infinity _) => Some "null"
  | VNum x => Some (num_to_string x)
  | VStr s => Some (quote_json s)
  | VArr l =>
      Some ("[" ++ join_with ","
                     (map (fun e => match stringify e with
                                    | Some t => t
                                    | None => "null"
                                    end) l)
                ++ "]")
  | VObj props =>
      Some ("{" ++ join_with ","
                     (flat_map
                        (fun kv => match stringify (snd kv) with
                                   | Some t => [quote_json (fst kv) ++ ":" ++ t]
                                   | None => []
                                   end) props)
                ++ "}")
  | VBuffer b =>
      Some ("{" ++ quote_json "type" ++ ":" ++ quote_json "Buffer" ++ ","
                ++ quote_json "data" ++ ":["
                ++ join_with ","
                     (map (fun c => digits_of (Z.of_nat (code c)))
                          (list_ascii_of_string b))
                ++ "]}")
  end%string.

(** [JSON.stringify(v)]. *)
Definition JSON_stringify (v : Value) : Value :=
  match stringify v with
  | Some t => VStr t
  | None => VUndefined
  end.

(** ** Buffer: base64 text of a byte string ([buf.toString('base64')]) *)

Definition b64_char (n : Z) : ascii :=
  ascii_of_nat (Z.to_nat
    (if n <? 26 then 65 + n
     else if n <? 52 then 71 + n
     else if n <? 62 then n - 4
     else if n =? 62 then 43 else 47)).

Fixpoint base64_bytes (l : list Z) : string :=
  match l with
  | [] => EmptyString
  | [a] =>
      String (b64_char (a / 4)) (String (b64_char ((a mod 4) * 16)) "==")
  | [a; b] =>
      String (b64_char (a / 4))
        (String (b64_char ((a mod 4) * 16 + b / 16))
           (String (b64_char ((b mod 16) * 4)) "="))
  | a :: b :: c :: rest =>
      String (b64_char (a / 4))
        (String (b64_char ((a mod 4) * 16 + b / 16))
           (String (b64_char ((b mod 16) * 4 + c / 64))
              (String (b64_char (c mod 64)) (base64_bytes rest))))
  end.

Definition base64 (bytes : string) : string :=
  base64_bytes (map (fun c => Z.of_nat (code c)) (list_ascii_of_string bytes)).

(** ** Date

    A [Date] is its time value, milliseconds since the epoch.  Calendar
    fields are those of the proleptic Gregorian calendar. *)

Definition msPerDay : Z := 86400000.

(** Year of era, month (1..12) and day of month of a day of era
    ([0 <= doe < 146097], eras of 400 years starting on 1 March). *)
Definition ymd_of_doe (doe : Z) : Z * Z * Z :=
  let yoe := (doe - doe / 1460 + doe / 36524 - doe / 146096) / 365 in
  let doy := doe - (365 * yoe + yoe / 4 - yoe / 100) in
  let mp := (5 * doy + 2) / 153 in
  let d := doy - (153 * mp + 2) / 5 + 1 in
  let m := if mp <? 10 then mp + 3 else mp - 9 in
  (yoe, m, d).

Definition doe_of_ymd (yoe m d : Z) : Z :=
  let doy := (153 * (if 2 <? m then m - 3 else m + 9) + 2) / 5 + d - 1 in
  yoe * 365 + yoe / 4 - yoe / 100 + doy.

(** Year, month and day of a day number (days since the epoch). *)
Definition civil_from_days (z : Z) : Z * Z * Z :=
  let era := (z + 719468) / 146097 in
  let doe := (z + 719468) mod 146097 in
  let '(yoe, m, d) := ymd_of_doe doe in
  (yoe + era * 400 + (if m <=? 2 then 1 else 0), m, d).

(** MakeDay: the day number of a year, month and day. *)
Definition days_from_civil (y m d : Z) : Z :=
  let y' := y - (if m <=? 2 then 1 else 0) in
  (y' / 400) * 146097 + doe_of_ymd (y' mod 400) m d - 719468.

(** The wall-clock reading carried by a date-time text without zone. *)
Record Civil : Type := mkCivil {
  year : Z; month : Z; day : Z; hour : Z; minute : Z; second : Z
}.

(** Wall-clock fields of a time value at a UTC offset, to the second. *)
Definition civil_at (offset_ms t : Z) : Civil :=
  let lt := t + offset_ms in
  let '(y, m, d) := civil_from_days (lt / msPerDay) in
  let tod := lt mod msPerDay in
  mkCivil y m d (tod / 3600000) ((tod / 60000) mod 60) ((tod / 1000) mod 60).

(** Europe/Moscow: UTC+3 all year (the zone's rule since 26 October 2014). *)
Definition moscow_offset_ms : Z := 3 * 3600000.

(** [d.toLocaleString('en-US', { timeZone: 'Europe/Moscow' })]: the text
    ["M/D/YYYY, h:mm:ss AM"], kept as the six fields it spells out. *)
Definition toLocaleString_enUS_Moscow (t : Z) : Civil :=
  civil_at moscow_offset_ms t.

(** [new Date(text)] for such a text: it names no zone, so its fields are
    read as local time of the process, whose zone is [local_offset_ms] east
    of UTC. *)
Definition Date_of_local (local_offset_ms : Z) (c : Civil) : Z :=
  days_from_civil (year c) (month c) (day c) * msPerDay
  + hour c * 3600000 + minute c * 60000 + second c * 1000
  - local_offset_ms.

Definition pad (width : nat) (z : Z) : string :=
  let ds := digits_of z in
  (zeros (width - String.length ds) ++ ds)%string.

(** [d.toISOString()]: always in UTC. *)
Definition toISOString (t : Z) : string :=
  let '(y, m, d) := civil_from_days (t / msPerDay) in
  let tod := t mod msPerDay in
  let ys :=
    if (0 <=? y) && (y <=? 9999) then pad 4 y
    else String (if y <? 0 then "-"%char else "+"%char) (pad 6 (Z.abs y)) in
  (ys ++ "-" ++ pad 2 m ++ "-" ++ pad 2 d ++ "T"
      ++ pad 2 (tod / 3600000) ++ ":" ++ pad 2 ((tod / 60000) mod 60) ++ ":"
      ++ pad 2 ((tod / 1000) mod 60) ++ "." ++ pad 3 (tod mod 1000) ++ "Z")%string.

(** [s.split(sep)[0]]. *)
Fixpoint split_head (sep : ascii) (s : string) : string :=
  match s with
  | EmptyString => EmptyString
  | String c r => if Ascii.eqb c sep then EmptyString
                  else String c (split_head sep r)
  end.

(** Does [s] contain [sub]? *)
Fixpoint contains (sub s : string) : bool :=
  String.prefix sub s ||
  match s with
  | EmptyString => false
  | String _ r => contains sub r
  end.

(** ** Result as an error monad *)

Definition bindR {A B : Type} (r : Result A) (k : A -> Result B) : Result B :=
  match r with
  | Returned a => k a
  | Thrown e => Thrown e
  end.

Notation "x <-? e ;; k" := (bindR e (fun x => k))
  (at level 61, e at next level, right associativity).

(** [arr.map(f)] for a callback that may throw. *)
Fixpoint mapR {A B : Type} (f : A -> Result B) (l : list A) : Result (list B) :=
  match l with
  | [] => Returned []
  | a :: rest =>
      b <-? f a ;;
      bs <-? mapR f rest ;;
      Returned (b :: bs)
  end.

(** [v.map(f)] on an arbitrary value: only an array has [map]. *)
Definition array_map (path : string) (v : Value) (f : Value -> Result Value)
  : Result Value :=
  match v with
  | VArr l => bs <-? mapR f l ;; Returned (VArr bs)
  | VUndefined => Thrown (cannot_read "undefined" "map")
  | VNull => Thrown (cannot_read "null" "map")
  | _ => Thrown (new_TypeError (path ++ ".map is not a function"))
  end.

(** [v.toString('base64')]: the base64 text of a Buffer; on other values
    the ordinary [toString], whose argument is a radix for numbers. *)
Definition toString_base64 (path : string) (v : Value) : Result Value :=
  match v with
  | VBuffer b => Returned (VStr (base64 b))
  | VUndefined => Thrown (cannot_read "undefined" "toString")
  | VNull => Thrown (cannot_read "null" "toString")
  | VNum _ =>
      Thrown (mkError "RangeError"
                "toString() radix must be between 2 and 36" None)
  | VObj props =>
      match lookup "toString" props with
      | Some _ => Thrown (new_TypeError (path ++ ".toString is not a function"))
      | None => Returned (VStr (to_string v))
      end
  | _ => Returned (VStr (to_string v))
  end.

(** Strict equality with a string literal, as in a [switch] case. *)
Definition is_string (v : Value) (s : string) : bool :=
  match v with
  | VStr a => String.eqb a s
  | _ => false
  end.

End Js.

(* ================================================================== *)
(** * Part II: the handler, [src/apivsk.js] *)
(* ================================================================== *)

Module Apivsk.
Import Js.

(** ** CONFIG *)

Definition YDB_TIMEOUT : Z := 5000.
Definition VSK_API_BASE_URL : string :=
  "https://services-stg.vsk.ru/ship/biz/sales/v2/".
Definition VSK_API_AUTH_URL : string := "https://services-stg.vsk.ru/ship/token".
Definition VSK_API_TIMEOUT : Z := 20000.
Definition VSK_API_RETRIES : Z := 3.
Definition OBJECT_STORAGE_ENDPOINT : string := "https://storage.yandexcloud.net".
Definition OBJECT_STORAGE_BUCKET : string := "your-bucket-name".
Definition OBJECT_STORAGE_FOLDER : string := "policy-previews/".

Definition METADATA_URL : string :=
  "http://169.254.169.254/computeMetadata/v1/instance/service-accounts/default/token".

(** ** External collaborators *)

(** The YDB driver built by [getDriver]. *)
Record Driver : Type := mkDriver {
  endpoint : string;
  database : string;
  authToken : Value
}.

Inductive Payload : Type :=
  | NoPayload
  | JsonBody (v : Value)
  | FormBody (fields : list (string * string)).

(** An axios request. *)
Record HttpRequest : Type := mkHttp {
  method : string;
  url : string;
  payload : Payload;
  req_headers : list (string * string);
  timeout : option Z;
  responseType : option string
}.

(** Values wrapped by [TypedValues]. *)
Inductive TypedValue : Type :=
  | TvTimestamp (t : Z)
  | TvDouble (v : Value)
  | TvUtf8 (v : Value).

(** An UPSERT statement: the table path prefix of its PRAGMA, the table
    and its columns. *)
Record Query : Type := mkQuery {
  pathPrefix : string;
  table : string;
  columns : list string
}.

(** A call that leaves the process (or suspends it). *)
Inductive Call : Type :=
  | Http (r : HttpRequest)
  | DriverReady (d : Driver) (ms : Z)
  | AcquireSession (d : Driver)
  | ReleaseSession
  | ExecuteQuery (q : Query) (params : list (string * TypedValue))
  | S3PutObject (bucket key : string) (content : string) (contentType : string)
  | S3GetSignedUrl (bucket key : string) (expires : Z)
  | Sleep (ms : Z).

(** What the collaborator answers: a value, or a failure (network error,
    timeout, non-success status, failed query). *)
Inductive Reply : Type :=
  | Ok (data : Value)
  | Fail (e : Error).

(** A stored row.  Modelled from the spec: the schema of the two tables is
    not in the source; an UPSERT is keyed by the row's timestamp, and a
    row of the same table with the same timestamp is replaced. *)
Record Row : Type := mkRow {
  row_table : string;
  row_timestamp : Z;
  row_values : list (string * TypedValue)
}.

(** Functions of the host that are used as given. *)
Record Host : Type := mkHost {
  (** [JSON.parse(text)] *)
  JSON_parse : string -> Result Value;
  (** [Buffer.from(v, 'base64')], the decoded bytes *)
  Buffer_from_base64 : Value -> Result string;
  (** [buf.toString('utf-8')] *)
  Buffer_toString_utf8 : string -> string
}.

(** The world a call runs in.  [replies n] and [clock n] are the reply to,
    and the time value read after, the [n]-th external call of the
    process; [trace] lists the external calls made so far, oldest first,
    each with the reply it got. *)
Record World : Type := mkWorld {
  env : list (string * string);
  host : Host;
  tz_offset_ms : Z;
  clock : nat -> Z;
  replies : nat -> Reply;
  driverInstance : option Driver;
  trace : list (Call * Reply);
  db : list Row
}.

Definition set_driverInstance (d : option Driver) (w : World) : World :=
  mkWorld (env w) (host w) (tz_offset_ms w) (clock w) (replies w) d
          (trace w) (db w).

Definition set_trace (t : list (Call * Reply)) (w : World) : World :=
  mkWorld (env w) (host w) (tz_offset_ms w) (clock w) (replies w)
          (driverInstance w) t (db w).

Definition set_db (rows : list Row) (w : World) : World :=
  mkWorld (env w) (host w) (tz_offset_ms w) (clock w) (replies w)
          (driverInstance w) (trace w) rows.

(** ** The monad of the handler: state and exceptions *)

Definition M (A : Type) : Type := World -> Result A * World.

Definition ret {A : Type} (a : A) : M A := fun w => (Returned a, w).

Definition throw {A : Type} (e : Error) : M A := fun w => (Thrown e, w).

Definition bind {A B : Type} (m : M A) (k : A -> M B) : M B :=
  fun w =>
    match m w with
    | (Returned a, w') => k a w'
    | (Thrown e, w') => (Thrown e, w')
    end.

Notation "x <- e ;; k" := (bind e (fun x => k))
  (at level 61, e at next level, right associativity).

(** [try { m } catch (err) { h err }]. *)
Definition try_catch {A : Type} (m : M A) (h : Error -> M A) : M A :=
  fun w =>
    match m w with
    | (Returned a, w') => (Returned a, w')
    | (Thrown e, w') => h e w'
    end.

Definition lift {A : Type} (r : Result A) : M A := fun w => (r, w).

(** An external call: it is appended to the trace with its reply; a
    failure is thrown. *)
Definition call (c : Call) : M Value :=
  fun w =>
    let r := replies w (List.length (trace w)) in
    let w' := set_trace (trace w ++ [(c, r)]) w in
    match r with
    | Ok v => (Returned v, w')
    | Fail e => (Thrown e, w')
    end.

(** A call that cannot fail (timer, release of a session). *)
Definition notify (c : Call) : M unit :=
  fun w => (Returned tt, set_trace (trace w ++ [(c, Ok VUndefined)]) w).

(** [Date.now()], also the time value of [new Date()]. *)
Definition Date_now : M Z :=
  fun w => (Returned (clock w (List.length (trace w))), w).

(** [process.env[key]]. *)
Fixpoint env_get (e : list (string * string)) (key : string) : option string :=
  match e with
  | [] => None
  | (k, v) :: rest => if String.eqb key k then Some v else env_get rest key
  end.

Definition env_value (w : World) (key : string) : Value :=
  match env_get (env w) key with
  | Some v => VStr v
  | None => VUndefined
  end.

Definition getenv (key : string) : M Value :=
  fun w => (Returned (env_value w key), w).

Definition the_host : M Host := fun w => (Returned (host w), w).

Definition the_tz : M Z := fun w => (Returned (tz_offset_ms w), w).

(** ** [checkEnv(...vars)] *)

Fixpoint checkEnv (vars : list string) : M unit :=
  match vars with
  | [] => ret tt
  | key :: rest =>
      v <- getenv key ;;
      if negb (to_boolean v) then
        throw (new_Error ("Missing env: " ++ key))
      else checkEnv rest
  end.

(** ** [fetchIamToken()] *)

Definition fetchIamToken : M Value :=
  try_catch
    (data <- call (Http (mkHttp "GET" METADATA_URL NoPayload
                           [("Metadata-Flavor", "Google")] (Some 2000) None)) ;;
     if negb (to_boolean data) then
       throw (new_Error "Пустой токен в ответе")
     else
       tok <- lift (get data "access_token") ;;
       if negb (to_boolean tok) then
         throw (new_Error "Пустой токен в ответе")
       else ret tok)
    (fun err =>
       throw (new_Error "Не удалось получить IAM токен автоматически")).

(** ** [getDriver()] *)

Definition getDriver : M Driver :=
  ep <- getenv "YDB_ENDPOINT" ;;
  dbn <- getenv "YDB_DATABASE" ;;
  if negb (to_boolean ep) || negb (to_boolean dbn) then
    throw (new_Error "Не заданы параметры YDB")
  else
    inst <- (fun w => (Returned (driverInstance w), w)) ;;
    match inst with
    | Some d => ret d
    | None =>
        iamToken <- fetchIamToken ;;
        let d := mkDriver (to_string ep) (to_string dbn) iamToken in
        _ <- (fun w => (Returned tt, set_driverInstance (Some d) w)) ;;
        ready <- call (DriverReady d 5000) ;;
        if negb (to_boolean ready) then throw (new_Error "YDB not ready")
        else ret d
    end.

(** ** [getVskToken()] *)

Definition token_request (client_id client_secret : Value) : HttpRequest :=
  mkHttp "POST" VSK_API_AUTH_URL
    (FormBody [("grant_type", "client_credentials");
               ("client_id", to_string client_id);
               ("client_secret", to_string client_secret)])
    [("Content-Type", "application/x-www-form-urlencoded")]
    (Some VSK_API_TIMEOUT) None.

(** One pass of the body of the [for] loop: [Some token] when the [try]
    block returns, [None] when the [catch] block ends and the loop goes
    on. *)
Definition getVskToken_attempt (i : Z) : M (option Value) :=
  try_catch
    (cid <- getenv "VSK_CLIENT_ID" ;;
     csec <- getenv "VSK_CLIENT_SECRET" ;;
     data <- call (Http (token_request cid csec)) ;;
     tok <- lift (get data "access_token") ;;
     ret (Some tok))
    (fun err =>
       if i =? VSK_API_RETRIES - 1 then throw err
       else
         _ <- notify (Sleep (1000 * (i + 1))) ;;
         ret None).

(** The loop [for (let i = ...; i < RETRIES; i++)], from [i]. *)
Fixpoint getVskToken_from (fuel : nat) (i : Z) : M Value :=
  match fuel with
  | O => ret VUndefined
  | S f =>
      if i <? VSK_API_RETRIES then
        r <- getVskToken_attempt i ;;
        match r with
        | Some tok => ret tok
        | None => getVskToken_from f (i + 1)
        end
      else ret VUndefined
  end.

Definition getVskToken : M Value :=
  _ <- checkEnv ["VSK_CLIENT_ID"; "VSK_CLIENT_SECRET"] ;;
  getVskToken_from (Z.to_nat VSK_API_RETRIES) 0.

(** ** [parseRequestBody(event)] *)

Record Event : Type := mkEvent {
  event_body : option string;
  event_isBase64Encoded : bool;
  event_path : option string
}.

Definition parseRequestBody (event : Event) : M Value :=
  match event_body event with
  | None => ret VNull
  | Some raw =>
      if negb (to_boolean (VStr raw)) then ret VNull
      else
        h <- the_host ;;
        text <- (if event_isBase64Encoded event then
                   b <- lift (Buffer_from_base64 h (VStr raw)) ;;
                   ret (Buffer_toString_utf8 h b)
                 else ret raw) ;;
        try_catch (lift (JSON_parse h text)) (fun err => ret VNull)
  end.

(** ** [buildAccidentRequest(input)] *)

(** The [issueDate] computed at time value [now] in a process whose zone
    is [tz] east of UTC. *)
Definition issueDate_at (tz now : Z) : string :=
  let moscow := Date_of_local tz (toLocaleString_enUS_Moscow now) in
  let today := split_head "T" (toISOString moscow) in
  (today ++ "T23:59:59+03:00")%string.

Definition individual (person : Value) : Value :=
  VObj (set_prop (spread person) "type" (VStr "individual")).

(** [c => ({ sumInsured: Number(c.sumInsured) || 50000 })] *)
Definition sumInsured_of (s : Value) : Value :=
  or_else (Number s) (VNum (num_of_Z 50000)).

Definition cover_of (c : Value) : Result Value :=
  s <-? get c "sumInsured" ;;
  Returned (VObj [("sumInsured", sumInsured_of s)]).

(** [i => ({ person: {...i.person, type: 'individual'},
             additionalFactors: i.additionalFactors })] *)
Definition insured_of (i : Value) : Result Value :=
  person <-? get i "person" ;;
  factors <-? get i "additionalFactors" ;;
  Returned (VObj [("person", individual person);
                  ("additionalFactors", factors)]).

Definition buildAccidentRequest_at (tz now : Z) (input : Value) : Result Value :=
  let issueDate := issueDate_at tz now in
  product <-? get input "product" ;;
  startDate <-? get input "startDate" ;;
  endDate <-? get input "endDate" ;;
  holder <-? get input "policyHolder" ;;
  person <-? get holder "person" ;;
  address <-? get holder "address" ;;
  phone <-? get holder "phone" ;;
  email <-? get holder "email" ;;
  object <-? get input "insuredObject" ;;
  covers <-? get object "covers" ;;
  covers' <-? array_map "input.insuredObject.covers" covers cover_of ;;
  insureds <-? get object "insureds" ;;
  insureds' <-? array_map "input.insuredObject.insureds" insureds insured_of ;;
  Returned
    (VObj [("product", or_else product (VObj [("code", VStr "ACCIDENT")]));
           ("startDate", startDate);
           ("endDate", endDate);
           ("issueDate", VStr issueDate);
           ("policyHolder",
            VObj [("person", individual person);
                  ("address", address);
                  ("phone", phone);
                  ("email", email)]);
           ("insuredObject",
            VObj [("covers", covers'); ("insureds", insureds')])]).

Definition buildAccidentRequest (input : Value) : M Value :=
  tz <- the_tz ;;
  now <- Date_now ;;
  lift (buildAccidentRequest_at tz now input).

(** ** Sessions and queries *)

Record Session : Type := mkSession { session_driver : Driver }.

Fixpoint param_timestamp (params : list (string * TypedValue)) : Z :=
  match params with
  | [] => 0
  | (_, TvTimestamp t) :: _ => t
  | _ :: rest => param_timestamp rest
  end.

Definition upsert (r : Row) (rows : list Row) : list Row :=
  filter (fun x => negb (String.eqb (row_table x) (row_table r)
                         && (row_timestamp x =? row_timestamp r))) rows
  ++ [r].

(** [session.executeQuery(q, params)]: the row is stored when the query
    succeeds; a failed query throws and stores nothing. *)
Definition executeQuery (session : Session) (q : Query)
           (params : list (string * TypedValue)) : M unit :=
  _ <- call (ExecuteQuery q params) ;;
  fun w =>
    (Returned tt,
     set_db (upsert (mkRow (table q) (param_timestamp params) params) (db w)) w).

(** [driver.tableClient.withSession(callback)]: a session is acquired, the
    callback runs, the session is released on either outcome and the
    outcome of the callback is passed on. *)
Definition withSession {A : Type} (driver : Driver) (callback : Session -> M A)
  : M A :=
  _ <- call (AcquireSession driver) ;;
  try_catch
    (r <- callback (mkSession driver) ;;
     _ <- notify ReleaseSession ;;
     ret r)
    (fun err => _ <- notify ReleaseSession ;; throw err).

(** ** Responses *)

Record Response : Type := mkResponse {
  statusCode : Z;
  headers : option (list (string * string));
  body : Value;
  isBase64Encoded : option bool
}.

Definition json_response (status : Z) (v : Value) : Response :=
  mkResponse status None (JSON_stringify v) None.

Definition bearer (token : Value) : list (string * string) :=
  [("Authorization", ("Bearer " ++ to_string token)%string)].

Definition partner_call (m u : string) (p : Payload) (token : Value) : Call :=
  Http (mkHttp m u p (bearer token) (Some VSK_API_TIMEOUT) None).

(** ** [handleCalc(session, token, params)] *)

Definition calc_query (w_database : Value) : Query :=
  mkQuery (to_string w_database) "insurance_calculations"
          ["timestamp"; "price"; "request_data"; "response_data"].

Definition handleCalc (session : Session) (token params : Value) : M Response :=
  let url := (VSK_API_BASE_URL ++ "individual/accident/quotes")%string in
  req <- buildAccidentRequest params ;;
  data <- call (partner_call "POST" url (JsonBody req) token) ;;
  dbn <- getenv "YDB_DATABASE" ;;
  ts <- Date_now ;;
  price <- lift (get data "premium") ;;
  _ <- executeQuery session (calc_query dbn)
         [("$ts", TvTimestamp ts);
          ("$price", TvDouble (or_else price (VNum (num_of_Z 0))));
          ("$reqData", TvUtf8 (JSON_stringify req));
          ("$respData", TvUtf8 (JSON_stringify data))] ;;
  premium <- lift (get data "premium") ;;
  draftId <- lift (get data "draftId") ;;
  object <- lift (get data "insuredObject") ;;
  covers <- lift (get object "covers") ;;
  ret (json_response 200
         (VObj [("premium", premium);
                ("requestId", draftId);
                ("covers", covers)])).

(** ** [handlePay(session, token, params)] *)

Definition pay_query (w_database : Value) : Query :=
  mkQuery (to_string w_database) "insurance_payments"
          ["timestamp"; "policyNumber"; "premium"; "paymentLink"; "extId";
           "request_data"].

Definition handlePay (session : Session) (token params : Value) : M Response :=
  let base := (VSK_API_BASE_URL ++ "individual/accident/policies")%string in
  req <- buildAccidentRequest params ;;
  policy <- call (partner_call "POST" base (JsonBody req) token) ;;
  number <- lift (get policy "policyNumber") ;;
  let payUrl := (base ++ "/" ++ to_string number ++ "/installments/1")%string in
  amount <- lift (get policy "premium") ;;
  successUrl <- lift (get params "successUrl") ;;
  failUrl <- lift (get params "failUrl") ;;
  pay <- call (partner_call "PUT" payUrl
                 (JsonBody (VObj [("amount", amount);
                                  ("paymentType", VStr "CARD");
                                  ("successUrl", successUrl);
                                  ("failUrl", failUrl)]))
                 token) ;;
  dbn <- getenv "YDB_DATABASE" ;;
  ts <- Date_now ;;
  polNo <- lift (get policy "policyNumber") ;;
  prem <- lift (get policy "premium") ;;
  link <- lift (get pay "paymentLink") ;;
  ext <- lift (get params "id") ;;
  _ <- executeQuery session (pay_query dbn)
         [("$ts", TvTimestamp ts);
          ("$polNo", TvUtf8 polNo);
          ("$prem", TvDouble prem);
          ("$link", TvUtf8 link);
          ("$ext", TvUtf8 (or_else ext (VStr EmptyString)));
          ("$rdata", TvUtf8 (JSON_stringify req))] ;;
  paymentLink <- lift (get pay "paymentLink") ;;
  policyNumber <- lift (get policy "policyNumber") ;;
  premium <- lift (get policy "premium") ;;
  id <- lift (get params "id") ;;
  ret (json_response 200
         (VObj [("paymentLink", paymentLink);
                ("policyNumber", policyNumber);
                ("premium", premium);
                ("id", id)])).

(** ** [handleCreatePolicy(session, token, params)] *)

Definition handleCreatePolicy (session : Session) (token params : Value)
  : M Value :=
  let base := (VSK_API_BASE_URL ++ "individual/accident/policies")%string in
  req <- buildAccidentRequest params ;;
  policy <- call (partner_call "POST" base (JsonBody req) token) ;;
  policyNumber <- lift (get policy "policyNumber") ;;
  premium <- lift (get policy "premium") ;;
  draftId <- lift (get policy "draftId") ;;
  ret (VObj [("policyNumber", policyNumber);
             ("premium", premium);
             ("draftId", draftId)]).

(** ** [handleSample(session, token, params)] *)

Definition handleSample (session : Session) (token params : Value)
  : M Response :=
  policyData <- handleCreatePolicy session token params ;;
  policyNumber <- lift (get policyData "policyNumber") ;;
  premium <- lift (get policyData "premium") ;;
  let pdfUrl :=
    (VSK_API_BASE_URL ++ "policies/" ++ to_string policyNumber
       ++ "/files/POLICY")%string in
  pdfData <- call (partner_call "GET" pdfUrl NoPayload token) ;;
  pdf <- lift (get pdfData "policyPDF") ;;
  if negb (to_boolean pdf) then
    throw (new_Error "PDF не найден в ответе ВСК")
  else
    let fileKey := ("policy-samples/" ++ to_string policyNumber ++ ".pdf")%string in
    h <- the_host ;;
    content <- lift (Buffer_from_base64 h pdf) ;;
    _ <- call (S3PutObject OBJECT_STORAGE_BUCKET fileKey content
                           "application/pdf") ;;
    signedUrl <- call (S3GetSignedUrl OBJECT_STORAGE_BUCKET fileKey 3600) ;;
    now <- Date_now ;;
    ret (json_response 200
           (VObj [("policyNumber", policyNumber);
                  ("premium", premium);
                  ("pdfUrl", signedUrl);
                  ("expiresAt", VStr (toISOString (now + 3600 * 1000)))])).

(** ** [handlePdf(session, token, body)] *)

Definition pdf_error_response (error : Error) : Response :=
  json_response 500
    (VObj [("error", VStr "Ошибка при получении PDF");
           ("details", VStr (err_message error))]).

Definition handlePdf (session : Session) (token body : Value) : M Response :=
  policy <- lift (get body "policy") ;;
  if negb (to_boolean policy) then
    ret (json_response 400 (VObj [("error", VStr "policy missing")]))
  else
    try_catch
      (data <- call (Http (mkHttp "GET"
                             ("https://api.vsk.ru/v3/accident/policies/"
                              ++ to_string policy ++ "/pdf")%string
                             NoPayload (bearer token) None
                             (Some "arraybuffer"))) ;;
       let disposition :=
         ("attachment; filename=" ++ String dquote (to_string policy)
            ++ ".pdf" ++ String dquote EmptyString)%string in
       content <- lift (toString_base64 "response.data" data) ;;
       ret (mkResponse 200
              (Some [("Content-Type", "application/pdf");
                     ("Content-Disposition", disposition)])
              content (Some true)))
      (fun error => ret (pdf_error_response error)).

(** ** [exports.handler] *)

Definition error_response (e : Error) : Response :=
  json_response 500 (VObj [("error", VStr (err_message e))]).

(** The body of the [switch], run inside the session. *)
Definition dispatch (body : Value) (session : Session) : M Response :=
  token <- getVskToken ;;
  action <- lift (get body "action") ;;
  if is_string action "calc" then handleCalc session token body
  else if is_string action "pay" then handlePay session token body
  else if is_string action "sample" then handleSample session token body
  else if is_string action "pdf" then handlePdf session token body
  else ret (json_response 400 (VObj [("error", VStr "Unknown action")])).

(** [getDriver()] is awaited inside the [try], so its failure reaches the
    [catch].  The promise of [withSession] is returned without [await]:
    the function has left the [try] when that promise settles, and a
    rejection of it is the rejection of the handler. *)
Definition handler (event : Event) : M Response :=
  body <- parseRequestBody event ;;
  if negb (to_boolean (get_opt body "action")) then
    ret (json_response 400 (VObj [("error", VStr "action missing")]))
  else
    r <- try_catch
           (driver <- getDriver ;; ret (inl driver))
           (fun e => ret (inr (error_response e))) ;;
    match r with
    | inl driver => withSession driver (dispatch body)
    | inr response => ret response
    end.

(** ** [exports.pdfHandler] *)

Fixpoint last_segment (s cur : string) : string :=
  match s with
  | EmptyString => cur
  | String c r =>
      if Ascii.eqb c "/" then last_segment r EmptyString
      else last_segment r (cur ++ String c EmptyString)%string
  end.

Fixpoint replace_first (pat s : string) : string :=
  if String.prefix pat s then drop (String.length pat) s
  else match s with
       | EmptyString => EmptyString
       | String c r => String c (replace_first pat r)
       end.

Definition pdfHandler (event : Event) : M Response :=
  try_catch
    (let path := match event_path event with
                 | Some p => or_else (VStr p) (VStr EmptyString)
                 | None => VStr EmptyString
                 end in
     let policyNumber :=
       replace_first ".pdf" (last_segment (to_string path) EmptyString) in
     if negb (to_boolean (VStr policyNumber)) then
       ret (json_response 400 (VObj [("error", VStr "Policy number is required")]))
     else
       driver <- getDriver ;;
       withSession driver (fun session =>
         token <- getVskToken ;;
         let u := (VSK_API_BASE_URL ++ "policies/" ++ policyNumber
                     ++ "/files/POLICY")%string in
         data <- call (Http (mkHttp "GET" u NoPayload (bearer token)
                               (Some VSK_API_TIMEOUT) (Some "json"))) ;;
         pdf <- lift (get data "policyPDF") ;;
         if negb (to_boolean pdf) then
           ret (json_response 404 (VObj [("error", VStr "PDF not found")]))
         else
           h <- the_host ;;
           pdfData <- lift (Buffer_from_base64 h pdf) ;;
           ret (mkResponse 200
                  (Some [("Content-Type", "application/pdf");
                         ("Content-Disposition",
                          ("attachment; filename=" ++ policyNumber
                             ++ ".pdf")%string)])
                  (VStr (base64 pdfData)) (Some true))))
    (fun e => ret (error_response e)).

End Apivsk.

(* ================================================================== *)
(** * Part III: sample worlds *)
(* ================================================================== *)

Module Samples.
Import Js Apivsk.

Definition num (z : Z) : Value := VNum (num_of_Z z).

Definition person_AB : Value :=
  VObj [("firstName", VStr "A"); ("lastName", VStr "B");
        ("birthDate", VStr "1990-01-01")].

Definition client_input (action : Value) : Value :=
  VObj [("action", action);
        ("startDate", VStr "2025-01-01");
        ("endDate", VStr "2026-01-01");
        ("policyHolder",
         VObj [("person", person_AB); ("address", VStr "x");
               ("phone", VStr "+7"); ("email", VStr "a@b.c")]);
        ("insuredObject",
         VObj [("covers", VArr [VObj [("sumInsured", num 100000)]]);
               ("insureds", VArr [VObj [("person", person_AB)]])])].

Definition quote_data : Value :=
  VObj [("premium", VNum (num_of_decimal false 12345 (-1)));
        ("draftId", VStr "D1");
        ("insuredObject",
         VObj [("covers", VArr [VObj [("sumInsured", num 100000)]])])].

Definition full_env : list (string * string) :=
  [("YDB_ENDPOINT", "grpcs://ydb.example:2135");
   ("YDB_DATABASE", "/ru/home/db");
   ("VSK_CLIENT_ID", "client");
   ("VSK_CLIENT_SECRET", "secret")].

Definition timed_out : Error := mkError "AxiosError" "timeout of 20000ms exceeded" None.

Definition status_error (status : Z) : Error :=
  mkError "AxiosError"
    ("Request failed with status code " ++ digits_of status)
    (Some (status, VObj [("message", VStr "upstream")])).

Definition query_failed : Error := mkError "YdbError" "Unavailable" None.

(** Replies in order; every later call times out. *)
Definition script (l : list Reply) : nat -> Reply :=
  fun n => nth n l (Fail timed_out).

(** A host whose [JSON.parse] reads the request text as [parsed]. *)
Definition host_reading (parsed : Value) : Host :=
  mkHost (fun _ => Returned parsed) (fun v => Returned (to_string v))
         (fun b => b).

Definition event_of (parsed : Value) : Event :=
  mkEvent (Some (to_string (JSON_stringify parsed))) false None.

(** 2026-11-02T08:24:05.123Z *)
Definition t0 : Z := 1793607845123.

(** A fresh process in UTC: no driver yet, empty trace and database. *)
Definition world (e : list (string * string)) (parsed : Value)
           (l : list Reply) : World :=
  mkWorld e (host_reading parsed) 0 (fun n => t0 + 1000 * Z.of_nat n)
          (script l) None [] [].

Definition iam_ok : Reply := Ok (VObj [("access_token", VStr "iam")]).
Definition vsk_ok : Reply := Ok (VObj [("access_token", VStr "vsk")]).
Definition ok : Reply := Ok VUndefined.
Definition ready : Reply := Ok (VBool true).

End Samples.

(* ================================================================== *)
(** * Part IV: vocabulary of the properties *)
(* ================================================================== *)

Import Js Apivsk Samples.

(** The world after further external calls. *)
Definition extend (evs : list (Call * Reply)) (w : World) : World :=
  set_trace (trace w ++ evs) w.

(** The reply the [k]-th coming external call will get. *)
Definition next_reply (w : World) (k : nat) : Reply :=
  replies w (List.length (trace w) + k).

Definition present (w : World) (key : string) : Prop :=
  to_boolean (env_value w key) = true.

Definition missing (w : World) (key : string) : Prop :=
  to_boolean (env_value w key) = false.

(** The OAuth exchange request of [getVskToken]. *)
Definition post_token (w : World) : Call :=
  Http (token_request (env_value w "VSK_CLIENT_ID")
                      (env_value w "VSK_CLIENT_SECRET")).

Definition non_nullish (v : Value) : bool :=
  match v with
  | VUndefined | VNull => false
  | _ => true
  end.

(** The four tiers of [sumInsured]. *)
Definition tiers : list Value := [num 50000; num 100000; num 250000; num 500000].

(** A client input with a policy holder's person, and non-empty arrays of
    covers and of insureds whose members are objects. *)
Definition valid_input (input : Value) : bool :=
  non_nullish (get_opt (get_opt input "policyHolder") "person")
  && match get_opt (get_opt input "insuredObject") "covers",
           get_opt (get_opt input "insuredObject") "insureds" with
     | VArr (c :: cs), VArr (i :: ins) =>
         forallb non_nullish (c :: cs) && forallb non_nullish (i :: ins)
     | _, _ => false
     end.

(** The properties of an object but one. *)
Definition without (k : string) (props : list (string * Value))
  : list (string * Value) :=
  filter (fun kv => negb (String.eqb (fst kv) k)) props.

(** The person sent to the partner for an input person. *)
Definition merged (person : Value) : list (string * Value) :=
  set_prop (spread person) "type" (VStr "individual").

(** [YYYY-MM-DD] of a year, month and day, as [toISOString] writes it. *)
Definition iso_date (ymd : Z * Z * Z) : string :=
  let '(y, m, d) := ymd in
  let ys :=
    if (0 <=? y) && (y <=? 9999) then pad 4 y
    else String (if y <? 0 then "-"%char else "+"%char) (pad 6 (Z.abs y)) in
  (ys ++ "-" ++ pad 2 m ++ "-" ++ pad 2 d)%string.

(** The calendar date in Moscow at a time value. *)
Definition moscow_date (t : Z) : Z * Z * Z :=
  civil_from_days ((t + moscow_offset_ms) / msPerDay).



(** Calls to the partner's sales API. *)
Definition is_partner (c : Call) : bool :=
  match c with
  | Http r => String.prefix VSK_API_BASE_URL (url r)
  | _ => false
  end.

Definition is_query (c : Call) : bool :=
  match c with
  | ExecuteQuery _ _ => true
  | _ => false
  end.

Definition succeeded (r : Reply) : bool :=
  match r with
  | Ok _ => true
  | Fail _ => false
  end.

(** What precedes the dispatch on the action: the metadata request, the
    readiness of the driver, the session, the OAuth exchange and its
    back-off timers. *)
Definition is_setup (c : Call) : bool :=
  match c with
  | Http r => String.eqb (url r) METADATA_URL || String.eqb (url r) VSK_API_AUTH_URL
  | DriverReady _ _ | AcquireSession _ | ReleaseSession | Sleep _ => true
  | _ => false
  end.

(** In the calls [evs] of a run, a query comes only after exactly [n]
    calls, all of them partner calls answered with success. *)
Definition query_after_success (n : nat) (evs : list (Call * Reply)) : Prop :=
  forall pre c r post,
    evs = pre ++ (c, r) :: post -> is_query c = true ->
    List.length pre = n /\
    Forall (fun ev => is_partner (fst ev) = true /\ succeeded (snd ev) = true) pre.

(** In the calls [evs] of a run, some partner call failed. *)
Definition partner_failed (evs : list (Call * Reply)) : Prop :=
  exists c e, In (c, Fail e) evs /\ is_partner c = true.

Definition no_query (evs : list (Call * Reply)) : Prop :=
  Forall (fun ev => is_query (fst ev) = false) evs.

(** What [cover_of] and [insured_of] return on an object. *)
Definition cover_out (c : Value) : Value :=
  VObj [("sumInsured", sumInsured_of (get_opt c "sumInsured"))].

Definition insured_out (i : Value) : Value :=
  VObj [("person", individual (get_opt i "person"));
        ("additionalFactors", get_opt i "additionalFactors")].

(** The request built from a valid input, but for its [issueDate]. *)
Definition request_of (issueDate : string) (input : Value) : list (string * Value) :=
  let holder := get_opt input "policyHolder" in
  let object := get_opt input "insuredObject" in
  [("product", or_else (get_opt input "product") (VObj [("code", VStr "ACCIDENT")]));
   ("startDate", get_opt input "startDate");
   ("endDate", get_opt input "endDate");
   ("issueDate", VStr issueDate);
   ("policyHolder",
    VObj [("person", individual (get_opt holder "person"));
          ("address", get_opt holder "address");
          ("phone", get_opt holder "phone");
          ("email", get_opt holder "email")]);
   ("insuredObject",
    VObj [("covers",
           match get_opt object "covers" with
           | VArr l => VArr (map cover_out l)
           | _ => VUndefined
           end);
          ("insureds",
           match get_opt object "insureds" with
           | VArr l => VArr (map insured_out l)
           | _ => VUndefined
           end)])].

Fixpoint no_T (s : string) : bool :=
  match s with
  | EmptyString => true
  | String c r => negb (Ascii.eqb c "T") && no_T r
  end.

Definition now_of (w : World) : Z := clock w (List.length (trace w)).

Definition quote_call (token req : Value) : Call :=
  partner_call "POST" (VSK_API_BASE_URL ++ "individual/accident/quotes")
               (JsonBody req) token.

Definition calc_params (ts : Z) (price req data : Value)
  : list (string * TypedValue) :=
  [("$ts", TvTimestamp ts);
   ("$price", TvDouble (or_else price (VNum (num_of_Z 0))));
   ("$reqData", TvUtf8 (JSON_stringify req));
   ("$respData", TvUtf8 (JSON_stringify data))].

Definition calc_response (data : Value) : Result Response :=
  premium <-? get data "premium" ;;
  draftId <-? get data "draftId" ;;
  object <-? get data "insuredObject" ;;
  covers <-? get object "covers" ;;
  Returned (json_response 200
              (VObj [("premium", premium);
                     ("requestId", draftId);
                     ("covers", covers)])).

(** The run of [handleCalc], step by step. *)
Definition handleCalc_run (token params : Value) (w : World)
  : Result Response * World :=
  match buildAccidentRequest_at (tz_offset_ms w) (now_of w) params with
  | Thrown e => (Thrown e, w)
  | Returned req =>
      match next_reply w 0 with
      | Fail e => (Thrown e, extend [(quote_call token req, Fail e)] w)
      | Ok data =>
          let w1 := extend [(quote_call token req, Ok data)] w in
          match get data "premium" with
          | Thrown e => (Thrown e, w1)
          | Returned price =>
              let ps := calc_params (now_of w1) price req data in
              let q := ExecuteQuery (calc_query (env_value w "YDB_DATABASE")) ps in
              match next_reply w 1 with
              | Fail e => (Thrown e, extend [(q, Fail e)] w1)
              | Ok v =>
                  (calc_response data,
                   set_db (upsert (mkRow "insurance_calculations" (now_of w1) ps)
                                  (db w))
                          (extend [(q, Ok v)] w1))
              end
          end
      end
  end.

(** ** [handlePay] *)

Definition policies_url : string :=
  VSK_API_BASE_URL ++ "individual/accident/policies".

Definition policy_call (token req : Value) : Call :=
  partner_call "POST" policies_url (JsonBody req) token.

(** The installment request: its URL and body. *)
Definition pay_request (policy params : Value) : Result (string * Value) :=
  number <-? get policy "policyNumber" ;;
  amount <-? get policy "premium" ;;
  successUrl <-? get params "successUrl" ;;
  failUrl <-? get params "failUrl" ;;
  Returned ((policies_url ++ "/" ++ to_string number ++ "/installments/1")%string,
            VObj [("amount", amount);
                  ("paymentType", VStr "CARD");
                  ("successUrl", successUrl);
                  ("failUrl", failUrl)]).

Definition pay_params (ts : Z) (policy pay params req : Value)
  : Result (list (string * TypedValue)) :=
  polNo <-? get policy "policyNumber" ;;
  prem <-? get policy "premium" ;;
  link <-? get pay "paymentLink" ;;
  ext <-? get params "id" ;;
  Returned [("$ts", TvTimestamp ts);
            ("$polNo", TvUtf8 polNo);
            ("$prem", TvDouble prem);
            ("$link", TvUtf8 link);
            ("$ext", TvUtf8 (or_else ext (VStr EmptyString)));
            ("$rdata", TvUtf8 (JSON_stringify req))].

Definition pay_response (policy pay params : Value) : Result Response :=
  paymentLink <-? get pay "paymentLink" ;;
  policyNumber <-? get policy "policyNumber" ;;
  premium <-? get policy "premium" ;;
  id <-? get params "id" ;;
  Returned (json_response 200
              (VObj [("paymentLink", paymentLink);
                     ("policyNumber", policyNumber);
                     ("premium", premium);
                     ("id", id)])).

(** The run of [handlePay], step by step. *)
Definition handlePay_run (token params : Value) (w : World)
  : Result Response * World :=
  match buildAccidentRequest_at (tz_offset_ms w) (now_of w) params with
  | Thrown e => (Thrown e, w)
  | Returned req =>
      match next_reply w 0 with
      | Fail e => (Thrown e, extend [(policy_call token req, Fail e)] w)
      | Ok policy =>
          let w1 := extend [(policy_call token req, Ok policy)] w in
          match pay_request policy params with
          | Thrown e => (Thrown e, w1)
          | Returned (payUrl, payBody) =>
              let put := partner_call "PUT" payUrl (JsonBody payBody) token in
              match next_reply w 1 with
              | Fail e => (Thrown e, extend [(put, Fail e)] w1)
              | Ok pay =>
                  let w2 := extend [(put, Ok pay)] w1 in
                  match pay_params (now_of w2) policy pay params req with
                  | Thrown e => (Thrown e, w2)
                  | Returned ps =>
                      let q := ExecuteQuery
                                 (pay_query (env_value w "YDB_DATABASE")) ps in
                      match next_reply w 2 with
                      | Fail e => (Thrown e, extend [(q, Fail e)] w2)
                      | Ok v =>
                          (pay_response policy pay params,
                           set_db (upsert (mkRow "insurance_payments"
                                                 (now_of w2) ps) (db w))
                                  (extend [(q, Ok v)] w2))
                      end
                  end
              end
          end
      end
  end.

(** A query is written only after [n] successful partner calls; a failed
    partner call leaves no query and no row. *)
Definition record_discipline (n : nat) (w w' : World) : Prop :=
  exists evs,
    trace w' = trace w ++ evs /\
    query_after_success n evs /\
    (partner_failed evs -> no_query evs /\ db w' = db w) /\
    (no_query evs -> db w' = db w).

(** The value bound to a query parameter. *)
Fixpoint param (k : string) (ps : list (string * TypedValue)) : option TypedValue :=
  match ps with
  | [] => None
  | (k', v) :: rest => if String.eqb k k' then Some v else param k rest
  end.

(** A computation that stores nothing and makes only calls allowed by
    [P]. *)
Definition quiet (P : Call -> bool) {A : Type} (m : M A) : Prop :=
  forall w,
    db (snd (m w)) = db w /\
    exists evs, trace (snd (m w)) = trace w ++ evs /\
                Forall (fun ev => P (fst ev) = true) evs.

Definition frobnicate : Value := client_input (VStr "frobnicate").
Definition frobnicate_world : World :=
  world full_env frobnicate [iam_ok; ready; ok; vsk_ok].

Definition calc_input : Value := client_input (VStr "calc").
Definition calc_request : Value :=
  match buildAccidentRequest_at 0 t0 calc_input with
  | Returned r => r
  | Thrown _ => VUndefined
  end.
Definition write_fails_world : World :=
  world full_env calc_input
        [iam_ok; ready; ok; vsk_ok; Ok quote_data; Fail query_failed].

Definition ydb_env : list (string * string) :=
  [("YDB_ENDPOINT", "grpcs://ydb.example:2135"); ("YDB_DATABASE", "/ru/home/db")].

Definition a_driver : Driver :=
  mkDriver "grpcs://ydb.example:2135" "/ru/home/db" (VStr "iam").
Definition a_session : Session := mkSession a_driver.

Definition iam_request : HttpRequest :=
  mkHttp "GET" METADATA_URL NoPayload [("Metadata-Flavor", "Google")]
         (Some 2000) None.

Definition action_missing_response : Response :=
  json_response 400 (VObj [("error", VStr "action missing")]).

Definition retry_world : World :=
  world full_env VNull [Fail timed_out; ok; Fail (status_error 503); ok; vsk_ok].
Definition exhausted_world : World :=
  world full_env VNull
        [Fail timed_out; ok; Fail (status_error 503); ok; Fail (status_error 401)].
Definition no_credentials_world : World := world ydb_env VNull [].
Definition no_secret_world : World :=
  world (("VSK_CLIENT_ID", "client") :: ydb_env) VNull [].
Definition quote_world : World := world full_env VNull [Ok quote_data; ok].
Definition free_quote : Value :=
  VObj [("premium", num 0); ("draftId", VStr "D2");
        ("insuredObject", VObj [("covers", VArr [])])].
Definition free_quote_world : World := world full_env VNull [Ok free_quote; ok].
Definition pdf_request : Value := VObj [("action", VStr "pdf"); ("policy", VStr "P-1")].
Definition pdf_fails_world : World := world full_env VNull [Fail (status_error 404)].

(** The properties of a request, in order. *)
Definition request_keys : list string :=
  ["product"; "startDate"; "endDate"; "issueDate"; "policyHolder";
   "insuredObject"].

Definition no_holder : Value := VObj [("action", VStr "calc")].

(** [!process.env[key]]. *)
Definition is_missing (w : World) (key : string) : bool :=
  negb (to_boolean (env_value w key)).

(** The error [fetchIamToken] throws, whatever went wrong. *)
Definition iam_failure : Error :=
  new_Error "Не удалось получить IAM токен автоматически".

Definition not_ready_world : World :=
  world full_env VNull [iam_ok; Ok (VBool false)].

Definition cached_unconfigured_world : World :=
  set_driverInstance (Some a_driver) (world [] VNull []).

(** The number of HTTP requests among calls. *)
Definition posts (evs : list (Call * Reply)) : nat :=
  List.length (filter (fun ev => match fst ev with Http _ => true | _ => false end) evs).

(** The waits among calls, in order. *)
Definition sleeps (evs : list (Call * Reply)) : list Z :=
  flat_map (fun ev => match fst ev with Sleep ms => [ms] | _ => [] end) evs.

Definition once_world : World := world full_env VNull [vsk_ok].
Definition tokenless_world : World := world full_env VNull [Ok (VObj [])].

Definition empty_reply_world : World := world full_env VNull [Ok VNull; ok; vsk_ok].

Definition unparseable_event : Event := mkEvent (Some "{oops") false None.
Definition picky_host : Host :=
  mkHost (fun _ => Thrown (mkError "SyntaxError" "Unexpected token o" None))
         (fun v => Returned (to_string v)) (fun b => b).
Definition picky_world : World :=
  mkWorld full_env picky_host 0 (fun _ => t0) (script []) None [] [].

Definition unconfigured_world : World :=
  world [] calc_input [].

Definition token_refused_world : World :=
  world full_env calc_input
        [iam_ok; ready; ok; Fail (status_error 401); ok; Fail (status_error 401);
         ok; Fail (status_error 401)].

(** Every value returned by [m] satisfies [Q]. *)
Definition yields {A : Type} (Q : A -> Prop) (m : M A) : Prop :=
  forall w, match fst (m w) with
            | Returned a => Q a
            | Thrown _ => True
            end.

(** The status codes of [pdfHandler]. *)
Definition pdf_statuses : list Z := [200; 400; 404; 500].

(** The policy number [pdfHandler] reads in the path of an event. *)
Definition policy_number_of (event : Event) : string :=
  replace_first ".pdf"
    (last_segment
       (to_string match event_path event with
                  | Some p => or_else (VStr p) (VStr EmptyString)
                  | None => VStr EmptyString
                  end) EmptyString).

Definition folder_event : Event := mkEvent None false (Some "/policies/").

Definition document_world : World := world full_env VNull [Ok (VBuffer "Man")].

(** Any call but a database query. *)
Definition not_query (c : Call) : bool := negb (is_query c).

(** The document request of [handleSample]. *)
Definition document_call (token number : Value) : Call :=
  partner_call "GET"
    (VSK_API_BASE_URL ++ "policies/" ++ to_string number ++ "/files/POLICY")
    NoPayload token.

Definition issued_policy : Value :=
  VObj [("policyNumber", VStr "P-1"); ("premium", num 1200); ("draftId", VStr "D1")].
Definition no_document_world : World :=
  world full_env VNull [Ok issued_policy; Ok (VObj [])].

Definition bare_quote : Value := VObj [("premium", num 1200)].
Definition bare_quote_world : World := world full_env VNull [Ok bare_quote; ok].

Definition numberless_policy : Value := VObj [("premium", num 1200)].
Definition payment_refused_world : World :=
  world full_env VNull [Ok numberless_policy; Fail (status_error 404)].

(* ================================================================== *)
(** * Part V: properties *)
(* ================================================================== *)

(** ** Objects *)

Lemma lookup_set_prop_same props k v : lookup k (set_prop props k v) = Some v.
Proof.
  induction props as [|[k' v'] rest IH]; cbn [set_prop lookup].
  - now rewrite String.eqb_refl.
  - destruct (String.eqb k k') eqn:E; cbn [lookup]; rewrite ?String.eqb_refl, ?E; auto.
Qed.

Lemma lookup_set_prop_other props k k' v :
  k' <> k -> lookup k' (set_prop props k v) = lookup k' props.
Proof.
  intros N. induction props as [|[k0 v0] rest IH]; cbn [set_prop lookup].
  - apply String.eqb_neq in N. now rewrite N.
  - destruct (String.eqb k k0) eqn:E; cbn [lookup].
    + apply String.eqb_eq in E. subst k0.
      apply String.eqb_neq in N. now rewrite N.
    + now rewrite IH.
Qed.

Lemma get_non_nullish v k :
  non_nullish v = true -> get v k = Returned (get_opt v k).
Proof. destruct v; cbn; try discriminate; intros _; try reflexivity.
  unfold get_opt, get. now destruct (lookup k props). Qed.

Lemma get_opt_of_get v k x : get v k = Returned x -> get_opt v k = x.
Proof. unfold get_opt. now intros ->. Qed.

Lemma get_returned_non_nullish v k x : get v k = Returned x -> non_nullish v = true.
Proof. destruct v; cbn; congruence. Qed.

Lemma non_nullish_get_opt v k :
  non_nullish (get_opt v k) = true -> non_nullish v = true.
Proof. destruct v; cbn; congruence. Qed.

(** ** [map] with a callback that may throw *)

Lemma mapR_nth {A B} (f : A -> Result B) l out i a :
  mapR f l = Returned out -> nth_error l i = Some a ->
  exists b, nth_error out i = Some b /\ f a = Returned b.
Proof.
  revert out i. induction l as [|x l IH]; intros out i H N.
  - destruct i; discriminate.
  - cbn [mapR] in H. destruct (f x) eqn:Fx; cbn [bindR] in H; [|discriminate].
    destruct (mapR f l) eqn:Ml; cbn [bindR] in H; [|discriminate].
    injection H as <-. destruct i; cbn [nth_error] in *.
    + injection N as <-. eauto.
    + eapply IH; eauto.
Qed.

Lemma mapR_all {A B} (f : A -> Result B) (g : A -> B) l :
  (forall a, In a l -> f a = Returned (g a)) -> mapR f l = Returned (map g l).
Proof.
  induction l as [|x l IH]; intros H; cbn [mapR map]; [reflexivity|].
  rewrite (H x (or_introl eq_refl)). cbn [bindR].
  rewrite IH; [reflexivity|]. intros a Ha. apply H. now right.
Qed.

Lemma cover_of_object c : non_nullish c = true -> cover_of c = Returned (cover_out c).
Proof. intros H. unfold cover_of. now rewrite (get_non_nullish _ _ H). Qed.

Lemma insured_of_object i : non_nullish i = true -> insured_of i = Returned (insured_out i).
Proof. intros H. unfold insured_of. now rewrite !(get_non_nullish _ _ H). Qed.

Lemma cover_of_inv c b : cover_of c = Returned b -> b = cover_out c.
Proof.
  unfold cover_of. destruct (get c "sumInsured") eqn:E; cbn [bindR]; [|discriminate].
  intros [= <-]. unfold cover_out. now rewrite (get_opt_of_get _ _ _ E).
Qed.

Ltac bindR_inv H :=
  repeat match type of H with
         | bindR ?r _ = Returned _ =>
             let E := fresh "E" in
             destruct r eqn:E; cbn [bindR] in H; [|discriminate H]
         end.

Lemma array_map_inv path v f out :
  array_map path v f = Returned out ->
  exists l bs, v = VArr l /\ out = VArr bs /\ mapR f l = Returned bs.
Proof.
  destruct v; cbn [array_map]; try discriminate.
  destruct (mapR f elems) eqn:E; cbn [bindR]; [|discriminate].
  intros [= <-]. eauto.
Qed.

(** C6.  For every cover of the client input, the request carries
    [sumInsured_of] of its [sumInsured]: the four tiers 50000, 100000,
    250000 and 500000 are kept as they are, and 0, [null], ["abc"] and any
    other value whose [Number(..)] is falsy become 50000. *)
Theorem sumInsured_coercion tz now input req covers i c :
  buildAccidentRequest_at tz now input = Returned req ->
  get_opt (get_opt input "insuredObject") "covers" = VArr covers ->
  nth_error covers i = Some c ->
  (exists out,
      get_opt (get_opt req "insuredObject") "covers" = VArr out /\
      nth_error out i
        = Some (VObj [("sumInsured", sumInsured_of (get_opt c "sumInsured"))])) /\
  (forall v, In v tiers -> sumInsured_of v = v) /\
  (forall v, v = num 0 \/ v = VNull \/ v = VStr "abc" ->
             sumInsured_of v = num 50000) /\
  (forall v, to_boolean (Number v) = false -> sumInsured_of v = num 50000).
Proof.
  intros H Hc Hn. split; [|split; [|split]].
  - unfold buildAccidentRequest_at in H. bindR_inv H.
    injection H as <-.
    rewrite (get_opt_of_get _ _ _ E7), (get_opt_of_get _ _ _ E8) in Hc. subst a8.
    apply array_map_inv in E9 as (l & bs & Hl & -> & Hm). injection Hl as <-.
    destruct (mapR_nth _ _ _ _ _ Hm Hn) as (b & Hb & Hf).
    apply cover_of_inv in Hf. subst b.
    exists bs. split; [reflexivity|exact Hb].
  - intros v Hv. cbn in Hv.
    destruct Hv as [<-|[<-|[<-|[<-|[]]]]]; reflexivity.
  - intros v [->|[->| ->]]; reflexivity.
  - intros v Hv. unfold sumInsured_of, or_else. now rewrite Hv.
Qed.

Lemma forallb_In {A} (p : A -> bool) l a : forallb p l = true -> In a l -> p a = true.
Proof. intros H. apply (proj1 (forallb_forall p l) H). Qed.

Lemma buildAccidentRequest_valid tz now input :
  valid_input input = true ->
  buildAccidentRequest_at tz now input
  = Returned (VObj (request_of (issueDate_at tz now) input)).
Proof.
  unfold valid_input. intros H. apply andb_prop in H as [Hp Hrest].
  pose proof (non_nullish_get_opt _ _ Hp) as Hholder.
  pose proof (non_nullish_get_opt _ _ Hholder) as Hin.
  destruct (get_opt (get_opt input "insuredObject") "covers") as [| | | | |cs| |] eqn:Ec;
    try discriminate.
  destruct cs as [|c cs]; [discriminate|].
  destruct (get_opt (get_opt input "insuredObject") "insureds") as [| | | | |ins| |] eqn:Ei;
    try discriminate.
  destruct ins as [|i ins]; [discriminate|].
  apply andb_prop in Hrest as [Hcs Hins].
  assert (Hobj : non_nullish (get_opt input "insuredObject") = true).
  { apply non_nullish_get_opt with (k := "covers"). now rewrite Ec. }
  unfold buildAccidentRequest_at, request_of.
  rewrite !(get_non_nullish input _ Hin). cbn [bindR].
  rewrite !(get_non_nullish _ _ Hholder). cbn [bindR].
  rewrite !(get_non_nullish _ _ Hobj). cbn [bindR].
  rewrite Ec, Ei. cbn [array_map].
  rewrite (mapR_all cover_of cover_out).
  2:{ intros a Ha. apply cover_of_object. exact (forallb_In _ _ _ Hcs Ha). }
  cbn [bindR].
  rewrite (mapR_all insured_of insured_out).
  2:{ intros a Ha. apply insured_of_object. exact (forallb_In _ _ _ Hins Ha). }
  reflexivity.
Qed.

(** C7.  [buildAccidentRequest] on a valid input returns a request that
    depends on the clock only through [issueDate] (two calls, at any two
    instants, agree on all other properties) and leaves the world as it
    is; [startDate] and [endDate] are those of the input; the holder's
    person and every insured person are the input person's own fields
    with [type] set to ["individual"], the tag replacing a [type] of the
    input. *)
Theorem buildAccidentRequest_pure input :
  valid_input input = true ->
  forall tz1 now1 tz2 now2,
  exists p1 p2,
    buildAccidentRequest_at tz1 now1 input = Returned (VObj p1) /\
    buildAccidentRequest_at tz2 now2 input = Returned (VObj p2) /\
    without "issueDate" p1 = without "issueDate" p2 /\
    lookup "issueDate" p1 = Some (VStr (issueDate_at tz1 now1)) /\
    lookup "startDate" p1 = Some (get_opt input "startDate") /\
    lookup "endDate" p1 = Some (get_opt input "endDate") /\
    get_opt (get_opt (VObj p1) "policyHolder") "person"
      = VObj (merged (get_opt (get_opt input "policyHolder") "person")) /\
    (forall ins i x,
        get_opt (get_opt input "insuredObject") "insureds" = VArr ins ->
        nth_error ins i = Some x ->
        exists out y,
          get_opt (get_opt (VObj p1) "insuredObject") "insureds" = VArr out /\
          nth_error out i = Some y /\
          get_opt y "person" = VObj (merged (get_opt x "person"))) /\
    (forall person k,
        lookup "type" (merged person) = Some (VStr "individual") /\
        (k <> "type" -> lookup k (merged person) = lookup k (spread person))) /\
    (forall w,
        buildAccidentRequest input w
        = (buildAccidentRequest_at (tz_offset_ms w)
             (clock w (List.length (trace w))) input, w)).
Proof.
  intros V tz1 now1 tz2 now2.
  exists (request_of (issueDate_at tz1 now1) input),
         (request_of (issueDate_at tz2 now2) input).
  repeat split.
  - now apply buildAccidentRequest_valid.
  - now apply buildAccidentRequest_valid.
  - intros ins i x Hins Hx. cbn. rewrite Hins.
    exists (map insured_out ins), (insured_out x). repeat split.
    now apply map_nth_error.
  - apply lookup_set_prop_same.
  - intros N. now apply lookup_set_prop_other.
Qed.

(** ** Calendar *)

Lemma ymd_of_doe_bounds doe :
  0 <= doe < 146097 ->
  let yoe := (doe - doe / 1460 + doe / 36524 - doe / 146096) / 365 in
  let doy := doe - (365 * yoe + yoe / 4 - yoe / 100) in
  0 <= yoe < 400 /\ 0 <= doy <= 366.
Proof.
  intros H yoe doy. subst doy yoe.
  Z.div_mod_to_equations. lia.
Qed.

Lemma doe_of_ymd_of_doe doe :
  0 <= doe < 146097 ->
  let '(yoe, m, d) := ymd_of_doe doe in
  0 <= yoe < 400 /\ doe_of_ymd yoe m d = doe.
Proof.
  intros H. pose proof (ymd_of_doe_bounds doe H) as B. cbv zeta in B.
  unfold ymd_of_doe, doe_of_ymd.
  set (yoe := (doe - doe / 1460 + doe / 36524 - doe / 146096) / 365) in *.
  set (doy := doe - (365 * yoe + yoe / 4 - yoe / 100)) in *.
  set (mp := (5 * doy + 2) / 153).
  destruct B as [By Bd]. split; [exact By|].
  assert (Bm : 0 <= mp <= 11).
  { subst mp. Z.div_mod_to_equations. lia. }
  assert (E : (if 2 <? (if mp <? 10 then mp + 3 else mp - 9)
               then (if mp <? 10 then mp + 3 else mp - 9) - 3
               else (if mp <? 10 then mp + 3 else mp - 9) + 9) = mp).
  { destruct (mp <? 10) eqn:E1.
    - apply Z.ltb_lt in E1. replace (2 <? mp + 3) with true by (symmetry; apply Z.ltb_lt; lia). lia.
    - apply Z.ltb_ge in E1. replace (2 <? mp - 9) with false by (symmetry; apply Z.ltb_ge; lia). lia. }
  rewrite E. subst doy. lia.
Qed.

Lemma days_from_civil_from_days z :
  let '(y, m, d) := civil_from_days z in days_from_civil y m d = z.
Proof.
  unfold civil_from_days.
  assert (H : 0 <= (z + 719468) mod 146097 < 146097) by (apply Z.mod_pos_bound; lia).
  pose proof (doe_of_ymd_of_doe _ H) as R.
  destruct (ymd_of_doe ((z + 719468) mod 146097)) as [[yoe m] d].
  destruct R as [By Rd].
  unfold days_from_civil.
  replace (yoe + (z + 719468) / 146097 * 400 + (if m <=? 2 then 1 else 0)
           - (if m <=? 2 then 1 else 0))
    with (yoe + (z + 719468) / 146097 * 400) by lia.
  rewrite Z.div_add by lia. rewrite Z.mod_add by lia.
  rewrite (Z.div_small yoe 400) by lia. rewrite (Z.mod_small yoe 400) by lia.
  rewrite Rd. pose proof (Z.div_mod (z + 719468) 146097). lia.
Qed.

(** Read back as UTC, the wall-clock reading at an offset is the shifted
    time value, cut to the second. *)
Lemma Date_of_local_UTC offset t :
  Date_of_local 0 (civil_at offset t) = (t + offset) - (t + offset) mod 1000.
Proof.
  unfold Date_of_local, civil_at.
  pose proof (days_from_civil_from_days ((t + offset) / msPerDay)) as R.
  destruct (civil_from_days ((t + offset) / msPerDay)) as [[y m] d].
  cbn [year month day hour minute second]. rewrite R.
  unfold msPerDay. Z.div_mod_to_equations. lia.
Qed.

Lemma same_day_to_the_second x : (x - x mod 1000) / msPerDay = x / msPerDay.
Proof. unfold msPerDay. Z.div_mod_to_equations. lia. Qed.

(** ** Text of a date *)

Lemma append_assoc (a b c : string) : ((a ++ b) ++ c = a ++ (b ++ c))%string.
Proof. induction a as [|x a IH]; cbn [append]; [reflexivity|now rewrite IH]. Qed.

Lemma split_head_app a b :
  no_T a = true -> split_head "T" (a ++ String "T" b) = a.
Proof.
  induction a as [|c a IH]; cbn [no_T append split_head]; intros H.
  - reflexivity.
  - apply andb_prop in H as [H1 H2]. apply negb_true_iff in H1. rewrite H1.
    now rewrite IH.
Qed.

Lemma no_T_app a b : no_T a = true -> no_T b = true -> no_T (a ++ b) = true.
Proof.
  induction a as [|c a IH]; cbn [no_T append]; intros Ha Hb; [exact Hb|].
  apply andb_prop in Ha as [H1 H2]. rewrite H1. cbn. now apply IH.
Qed.

Lemma digit_not_T z : 0 <= z < 10 ->
  Ascii.eqb (ascii_of_nat (48 + Z.to_nat z)) "T" = false.
Proof.
  intros H.
  assert (z = 0 \/ z = 1 \/ z = 2 \/ z = 3 \/ z = 4 \/ z = 5 \/ z = 6 \/ z = 7 \/ z = 8 \/ z = 9) by lia.
  repeat (destruct H0 as [->|H0]; [reflexivity|]). subst. reflexivity.
Qed.

Lemma no_T_digits_of_fuel fuel z acc :
  no_T acc = true -> no_T (digits_of_fuel fuel z acc) = true.
Proof.
  revert z acc. induction fuel as [|f IH]; intros z acc H; cbn [digits_of_fuel]; [exact H|].
  assert (D : no_T (String (ascii_of_nat (48 + Z.to_nat (z mod 10))) acc) = true).
  { cbn [no_T]. rewrite digit_not_T by (apply Z.mod_pos_bound; lia). exact H. }
  destruct (z <? 10); [exact D|]. now apply IH.
Qed.

Lemma no_T_zeros n : no_T (zeros n) = true.
Proof. induction n; cbn; auto. Qed.

Lemma no_T_pad w z : no_T (pad w z) = true.
Proof.
  unfold pad. apply no_T_app; [apply no_T_zeros|].
  unfold digits_of. now apply no_T_digits_of_fuel.
Qed.

Lemma no_T_iso_date ymd : no_T (iso_date ymd) = true.
Proof.
  destruct ymd as [[y m] d]. unfold iso_date. cbv zeta.
  apply no_T_app.
  - destruct (_ && _); [apply no_T_pad|].
    cbn [no_T]. rewrite no_T_pad. now destruct (y <? 0).
  - cbn [append no_T]. cbn [Ascii.eqb Bool.eqb negb andb].
    apply no_T_app; [apply no_T_pad|].
    cbn [append no_T]. cbn [Ascii.eqb Bool.eqb negb andb]. apply no_T_pad.
Qed.

(** The text before the [T] of [toISOString] is the UTC date. *)
Lemma toISOString_date t :
  split_head "T" (toISOString t) = iso_date (civil_from_days (t / msPerDay)).
Proof.
  unfold toISOString.
  pose proof (no_T_iso_date (civil_from_days (t / msPerDay))) as N.
  destruct (civil_from_days (t / msPerDay)) as [[y m] d].
  set (rest := (pad 2 (t mod msPerDay / 3600000) ++ _)%string).
  cbv zeta.
  replace (_ ++ "-" ++ pad 2 m ++ "-" ++ pad 2 d ++ "T" ++ _)%string
    with (iso_date (y, m, d) ++ String "T" rest)%string.
  - now apply split_head_app.
  - unfold iso_date. rewrite !append_assoc. reflexivity.
Qed.

(** X1.  In a process whose zone is UTC the [issueDate] is the Moscow
    date of the instant, followed by [T23:59:59+03:00], at every
    instant. *)
Lemma issueDate_UTC now :
  issueDate_at 0 now = (iso_date (moscow_date now) ++ "T23:59:59+03:00")%string.
Proof.
  unfold issueDate_at, toLocaleString_enUS_Moscow, moscow_date.
  rewrite Date_of_local_UTC, toISOString_date, same_day_to_the_second.
  reflexivity.
Qed.

(** C3.  In a process whose local zone is Europe/Moscow, at
    2026-11-01T22:30:00Z (01:30 on 2 November in Moscow) the [issueDate]
    is ["2026-11-01T23:59:59+03:00"], the day before the Moscow date; the
    same instant in a UTC process gives 2 November. *)
Theorem issueDate_not_Moscow_date_off_UTC :
  issueDate_at moscow_offset_ms 1793572200000 = "2026-11-01T23:59:59+03:00"
  /\ moscow_date 1793572200000 = (2026, 11, 2)
  /\ issueDate_at 0 1793572200000 = "2026-11-02T23:59:59+03:00".
Proof. repeat split; vm_compute; reflexivity. Qed.

(** ** Worlds *)

Lemma extend_extend evs1 evs2 w :
  extend evs2 (extend evs1 w) = extend (evs1 ++ evs2) w.
Proof. destruct w; unfold extend, set_trace; cbn. now rewrite app_assoc. Qed.

Lemma extend_nil w : extend [] w = w.
Proof. destruct w; unfold extend, set_trace; cbn. now rewrite app_nil_r. Qed.

Lemma next_reply_extend evs w k :
  next_reply (extend evs w) k = next_reply w (List.length evs + k).
Proof.
  unfold next_reply, extend. cbn. rewrite length_app. f_equal. lia.
Qed.

Lemma call_reply c w :
  call c w = match next_reply w 0 with
             | Ok v => (Returned v, extend [(c, Ok v)] w)
             | Fail e => (Thrown e, extend [(c, Fail e)] w)
             end.
Proof.
  unfold call, next_reply, extend. rewrite Nat.add_0_r.
  now destruct (replies w (List.length (trace w))).
Qed.

(** ** [checkEnv] *)

Lemma checkEnv_present w a b :
  present w a -> present w b -> checkEnv [a; b] w = (Returned tt, w).
Proof.
  unfold present. intros Ha Hb. unfold checkEnv, bind, getenv, ret.
  rewrite Ha. cbn [negb]. rewrite Hb. reflexivity.
Qed.

Lemma checkEnv_missing_first w a rest :
  missing w a -> checkEnv (a :: rest) w = (Thrown (new_Error ("Missing env: " ++ a)), w).
Proof.
  unfold missing. intros Ha. cbn [checkEnv]. unfold bind, getenv, throw.
  now rewrite Ha.
Qed.

Lemma checkEnv_present_first w a rest :
  present w a -> checkEnv (a :: rest) w = checkEnv rest w.
Proof.
  unfold present. intros Ha. cbn [checkEnv]. unfold bind, getenv.
  now rewrite Ha.
Qed.

(** C8, as amended.  [getVskToken] fails before any network call, with
    the world untouched, on the first credential that is missing in the
    order (client id, client secret), and its error names that one
    credential: ["Missing env: VSK_CLIENT_ID"] when the client id is
    missing (whether or not the secret is), ["Missing env:
    VSK_CLIENT_SECRET"] when only the secret is. *)
Theorem getVskToken_missing_credential w :
  (missing w "VSK_CLIENT_ID" ->
   getVskToken w = (Thrown (new_Error "Missing env: VSK_CLIENT_ID"), w)) /\
  (present w "VSK_CLIENT_ID" -> missing w "VSK_CLIENT_SECRET" ->
   getVskToken w = (Thrown (new_Error "Missing env: VSK_CLIENT_SECRET"), w)).
Proof.
  split.
  - intros H. unfold getVskToken, bind.
    now rewrite (checkEnv_missing_first _ _ _ H).
  - intros H1 H2. unfold getVskToken, bind.
    now rewrite (checkEnv_present_first _ _ _ H1), (checkEnv_missing_first _ _ _ H2).
Qed.

(** ** [getVskToken] *)

Lemma attempt_fail w i e :
  next_reply w 0 = Fail e ->
  getVskToken_attempt i w =
    if i =? VSK_API_RETRIES - 1
    then (Thrown e, extend [(post_token w, Fail e)] w)
    else (Returned None,
          extend [(post_token w, Fail e);
                  (Sleep (1000 * (i + 1)), Ok VUndefined)] w).
Proof.
  intros H. unfold getVskToken_attempt, try_catch, bind, getenv.
  rewrite call_reply, H. unfold throw, notify, ret.
  destruct (i =? _); [reflexivity|].
  unfold extend, set_trace, post_token. destruct w; cbn.
  now rewrite <- app_assoc.
Qed.

Lemma attempt_ok w i d tok :
  next_reply w 0 = Ok d ->
  get d "access_token" = Returned tok ->
  getVskToken_attempt i w
  = (Returned (Some tok), extend [(post_token w, Ok d)] w).
Proof.
  intros H G. unfold getVskToken_attempt, try_catch, bind, getenv.
  rewrite call_reply, H. unfold lift, ret. now rewrite G.
Qed.

(** After two failed attempts the loop is at its third pass. *)
Lemma getVskToken_two_failures w e1 e2 :
  present w "VSK_CLIENT_ID" -> present w "VSK_CLIENT_SECRET" ->
  next_reply w 0 = Fail e1 ->
  next_reply w 2 = Fail e2 ->
  getVskToken w
  = match getVskToken_attempt 2
            (extend [(post_token w, Fail e1); (Sleep 1000, Ok VUndefined);
                     (post_token w, Fail e2); (Sleep 2000, Ok VUndefined)] w)
    with
    | (Returned (Some tok), w') => (Returned tok, w')
    | (Returned None, w') => (Returned VUndefined, w')
    | (Thrown e, w') => (Thrown e, w')
    end.
Proof.
  intros Hid Hsec H1 H2.
  unfold getVskToken. unfold bind at 1. rewrite (checkEnv_present _ _ _ Hid Hsec).
  change (Z.to_nat VSK_API_RETRIES) with 3%nat.
  cbn [getVskToken_from].
  change (0 <? VSK_API_RETRIES) with true. cbv iota.
  unfold bind at 1. rewrite (attempt_fail _ _ _ H1).
  change (0 =? VSK_API_RETRIES - 1) with false. cbv iota.
  change (0 + 1 <? VSK_API_RETRIES) with true. cbv iota.
  unfold bind at 1. rewrite (attempt_fail _ _ e2).
  2:{ rewrite next_reply_extend. exact H2. }
  change (0 + 1 =? VSK_API_RETRIES - 1) with false. cbv iota.
  change (0 + 1 + 1 <? VSK_API_RETRIES) with true. cbv iota.
  rewrite extend_extend.
  unfold bind.
  change (0 + 1 + 1) with 2.
  change (1000 * (0 + 1)) with 1000. change (1000 * (0 + 1 + 1)) with 2000.
  cbn [app].
  destruct (getVskToken_attempt 2 _) as [[[tok|]|e] w']; reflexivity.
Qed.

(** C2.  With both credentials present: when the first two OAuth
    exchanges fail and the third succeeds, [getVskToken] makes exactly
    three attempts, waits 1000 ms after the first failure and 2000 ms
    after the second, and returns the [access_token] of the third reply;
    when all three fail it makes three attempts with the same two waits
    and throws the error of the third attempt itself. *)
Theorem getVskToken_retries w :
  present w "VSK_CLIENT_ID" -> present w "VSK_CLIENT_SECRET" ->
  (forall e1 e2 d tok,
      next_reply w 0 = Fail e1 ->
      next_reply w 2 = Fail e2 ->
      next_reply w 4 = Ok d ->
      get d "access_token" = Returned tok ->
      getVskToken w
      = (Returned tok,
         extend [(post_token w, Fail e1); (Sleep 1000, Ok VUndefined);
                 (post_token w, Fail e2); (Sleep 2000, Ok VUndefined);
                 (post_token w, Ok d)] w)) /\
  (forall e1 e2 e3,
      next_reply w 0 = Fail e1 ->
      next_reply w 2 = Fail e2 ->
      next_reply w 4 = Fail e3 ->
      getVskToken w
      = (Thrown e3,
         extend [(post_token w, Fail e1); (Sleep 1000, Ok VUndefined);
                 (post_token w, Fail e2); (Sleep 2000, Ok VUndefined);
                 (post_token w, Fail e3)] w)).
Proof.
  intros Hid Hsec. split.
  - intros e1 e2 d tok H1 H2 H3 G.
    rewrite (getVskToken_two_failures _ _ _ Hid Hsec H1 H2).
    rewrite (attempt_ok _ _ d tok); [|rewrite next_reply_extend; exact H3|exact G].
    now rewrite extend_extend.
  - intros e1 e2 e3 H1 H2 H3.
    rewrite (getVskToken_two_failures _ _ _ Hid Hsec H1 H2).
    rewrite (attempt_fail _ _ e3); [|rewrite next_reply_extend; exact H3].
    change (2 =? VSK_API_RETRIES - 1) with true. cbv iota.
    now rewrite extend_extend.
Qed.

Lemma handleCalc_unfold session token params w :
  handleCalc session token params w = handleCalc_run token params w.
Proof.
  unfold handleCalc, handleCalc_run, buildAccidentRequest.
  unfold bind at 1. unfold the_tz. unfold bind at 1. unfold Date_now.
  unfold bind at 1. unfold lift at 1. fold (now_of w).
  destruct (buildAccidentRequest_at _ _ params) as [req|e]; [|reflexivity].
  unfold bind at 1. rewrite call_reply.
  fold (quote_call token req).
  destruct (next_reply w 0) as [data|e] eqn:R0; [|reflexivity].
  unfold bind at 1. unfold getenv. unfold bind at 1. unfold bind at 1.
  unfold lift at 1.
  destruct (get data "premium") as [price|e] eqn:G; [|reflexivity].
  unfold bind at 1. unfold executeQuery. unfold bind at 1. rewrite call_reply.
  rewrite next_reply_extend. cbn [List.length Nat.add].
  destruct (next_reply w 1) as [v|e] eqn:R1; [|reflexivity].
  unfold calc_response, bind, lift, ret. rewrite G. cbn [bindR].
  destruct (get data "draftId"); cbn [bindR]; [|reflexivity].
  destruct (get data "insuredObject"); cbn [bindR]; [|reflexivity].
  destruct (get a0 "covers"); cbn [bindR]; reflexivity.
Qed.

(** ** Running binds *)

Lemma bind_lift {A B} (r : Result A) (k : A -> M B) w :
  bind (lift r) k w = match r with
                      | Returned a => k a w
                      | Thrown e => (Thrown e, w)
                      end.
Proof. now destruct r. Qed.

Lemma bind_getenv {B} key (k : Value -> M B) w :
  bind (getenv key) k w = k (env_value w key) w.
Proof. reflexivity. Qed.

Lemma bind_Date_now {B} (k : Z -> M B) w :
  bind Date_now k w = k (now_of w) w.
Proof. reflexivity. Qed.

Lemma bind_call {B} c (k : Value -> M B) w :
  bind (call c) k w = match next_reply w 0 with
                      | Ok v => k v (extend [(c, Ok v)] w)
                      | Fail e => (Thrown e, extend [(c, Fail e)] w)
                      end.
Proof. unfold bind. rewrite call_reply. now destruct (next_reply w 0). Qed.

Lemma bind_buildAccidentRequest {B} input (k : Value -> M B) w :
  bind (buildAccidentRequest input) k w
  = match buildAccidentRequest_at (tz_offset_ms w) (now_of w) input with
    | Returned req => k req w
    | Thrown e => (Thrown e, w)
    end.
Proof.
  unfold buildAccidentRequest, bind, the_tz, Date_now, lift, now_of.
  now destruct (buildAccidentRequest_at _ _ input).
Qed.

Lemma bind_executeQuery {B} session q ps (k : unit -> M B) w :
  bind (executeQuery session q ps) k w
  = match next_reply w 0 with
    | Ok v => k tt (set_db (upsert (mkRow (table q) (param_timestamp ps) ps) (db w))
                           (extend [(ExecuteQuery q ps, Ok v)] w))
    | Fail e => (Thrown e, extend [(ExecuteQuery q ps, Fail e)] w)
    end.
Proof.
  unfold executeQuery, bind. rewrite call_reply. now destruct (next_reply w 0).
Qed.

Ltac run_get :=
  rewrite bind_lift;
  match goal with
  | |- context [match get ?v ?k with _ => _ end] =>
      let E := fresh "G" in
      destruct (get v k) eqn:E; cbn [bindR]; [|reflexivity]
  end.

Lemma handlePay_unfold session token params w :
  handlePay session token params w = handlePay_run token params w.
Proof.
  unfold handlePay, handlePay_run.
  rewrite bind_buildAccidentRequest.
  destruct (buildAccidentRequest_at _ _ params) as [req|e]; [|reflexivity].
  rewrite bind_call. fold policies_url. fold (policy_call token req).
  destruct (next_reply w 0) as [policy|e]; [|reflexivity].
  unfold pay_request.
  do 4 run_get.
  rewrite bind_call, next_reply_extend. cbn [List.length Nat.add].
  destruct (next_reply w 1) as [pay|e]; [|reflexivity].
  rewrite bind_getenv, bind_Date_now.
  unfold pay_params.
  rewrite bind_lift, G. cbn [bindR].
  rewrite bind_lift, G0. cbn [bindR].
  run_get.
  rewrite bind_lift.
  destruct (get params "id") eqn:Gid; cbn [bindR]; [|reflexivity].
  rewrite bind_executeQuery, !next_reply_extend. cbn [List.length Nat.add].
  destruct (next_reply w 2) as [v|e]; [|reflexivity].
  unfold pay_response.
  rewrite !bind_lift, G, G0, G3, Gid. reflexivity.
Qed.

Lemma trace_extend_twice evs1 evs2 w :
  trace (extend evs2 (extend evs1 w)) = trace w ++ evs1 ++ evs2.
Proof. cbn. now rewrite <- app_assoc. Qed.

Lemma is_partner_put token policy params payUrl payBody :
  pay_request policy params = Returned (payUrl, payBody) ->
  is_partner (partner_call "PUT" payUrl (JsonBody payBody) token) = true.
Proof.
  unfold pay_request. intros H. bindR_inv H. injection H as <- <-. reflexivity.
Qed.

(** Splitting a short list of calls at a query. *)
Ltac at_query E Q :=
  match type of E with
  | ?pre ++ _ :: _ = [] => destruct pre; discriminate E
  | ?pre ++ _ :: _ = _ :: _ =>
      destruct pre as [|? pre]; cbn [app] in E;
      [ inversion E; subst; clear E;
        first [ discriminate Q
              | cbn in Q; congruence
              | split; [reflexivity | repeat constructor; cbn; auto] ]
      | let E' := fresh "E" in let P := fresh "P" in
        injection E as P E'; rewrite P in *; clear P; at_query E' Q ]
  end.

Ltac discipline evs :=
  exists evs; split;
  [ first [ symmetry; apply app_nil_r | reflexivity | apply trace_extend_twice
          | cbn; rewrite <- ?app_assoc; reflexivity ]
  | split; [ intros pre c r post E Q; symmetry in E; at_query E Q | split ] ].

Ltac failed_partner H :=
  let c := fresh "c" in let e := fresh "e" in
  let Hin := fresh "Hin" in let Hp := fresh "Hp" in
  destruct H as (c & e & Hin & Hp); cbn [In] in Hin;
  repeat (destruct Hin as [Hin|Hin]; [inversion Hin; subst; clear Hin|]);
  try contradiction; try discriminate Hp; try (cbn in Hp; congruence).

Ltac impossible_no_query H :=
  repeat match type of H with
         | no_query _ => unfold no_query in H
         | Forall _ (_ :: _) =>
             let X := fresh in let Y := fresh in
             inversion H as [|? ? X Y]; subst; clear H; try discriminate X;
             rename Y into H
         end.

(** C4.  In every run of [handleCalc] (resp. [handlePay]) a query is
    executed only after exactly one (resp. two) partner calls, all
    answered with success; a run in which a partner call failed executes
    no query and leaves the database as it was; and the database changes
    only in a run that executes a query. *)
Theorem record_only_after_partner_success session token params w :
  record_discipline 1 w (snd (handleCalc session token params w)) /\
  record_discipline 2 w (snd (handlePay session token params w)).
Proof.
  split.
  - rewrite handleCalc_unfold. unfold handleCalc_run.
    destruct (buildAccidentRequest_at _ _ params) as [req|e0].
    2:{ discipline (@nil (Call * Reply)).
        - intros H; failed_partner H.
        - reflexivity. }
    destruct (next_reply w 0) as [data|e0].
    2:{ discipline [(quote_call token req, Fail e0)].
        - intros _. split; [repeat constructor | reflexivity].
        - reflexivity. }
    destruct (get data "premium") as [price|e0].
    2:{ discipline [(quote_call token req, Ok data)].
        - intros H; failed_partner H.
        - reflexivity. }
    cbv zeta.
    destruct (next_reply w 1) as [v|e0].
    2:{ match goal with
        | |- context [extend [(?q, Fail e0)] _] =>
            discipline [(quote_call token req, Ok data); (q, Fail e0)]
        end.
        - intros H; failed_partner H.
        - reflexivity. }
    match goal with
    | |- context [extend [(?q, Ok v)] _] =>
        discipline [(quote_call token req, Ok data); (q, Ok v)]
    end.
    + intros H; failed_partner H.
    + intros H. impossible_no_query H.
  - rewrite handlePay_unfold. unfold handlePay_run.
    destruct (buildAccidentRequest_at _ _ params) as [req|e0].
    2:{ discipline (@nil (Call * Reply)).
        - intros H; failed_partner H.
        - reflexivity. }
    destruct (next_reply w 0) as [policy|e0].
    2:{ discipline [(policy_call token req, Fail e0)].
        - intros _. split; [repeat constructor | reflexivity].
        - reflexivity. }
    destruct (pay_request policy params) as [[payUrl payBody]|e0] eqn:PR.
    2:{ discipline [(policy_call token req, Ok policy)].
        - intros H; failed_partner H.
        - reflexivity. }
    pose proof (is_partner_put token _ _ _ _ PR) as Put.
    cbv zeta.
    set (put := partner_call "PUT" payUrl (JsonBody payBody) token) in *.
    assert (NQ : is_query put = false) by reflexivity.
    clearbody put.
    destruct (next_reply w 1) as [pay|e0].
    2:{ discipline [(policy_call token req, Ok policy); (put, Fail e0)].
        - intros _. split; [repeat constructor; auto | reflexivity].
        - reflexivity. }
    destruct (pay_params _ policy pay params req) as [ps|e0].
    2:{ discipline [(policy_call token req, Ok policy); (put, Ok pay)].
        - intros H; failed_partner H.
        - reflexivity. }
    destruct (next_reply w 2) as [v|e0].
    2:{ match goal with
        | |- context [extend [(?q, Fail e0)] _] =>
            discipline [(policy_call token req, Ok policy); (put, Ok pay);
                        (q, Fail e0)]
        end.
        - intros H; failed_partner H.
        - reflexivity. }
    match goal with
    | |- context [extend [(?q, Ok v)] _] =>
        discipline [(policy_call token req, Ok policy); (put, Ok pay); (q, Ok v)]
    end.
    + intros H; failed_partner H.
    + intros H. impossible_no_query H.
Qed.

Section Quiet.
Variable P : Call -> bool.

Lemma quiet_pure {A} (f : World -> Result A) : quiet P (fun w => (f w, w)).
Proof. intros w. split; [reflexivity|]. exists []. now rewrite app_nil_r. Qed.

Lemma quiet_ret {A} (a : A) : quiet P (ret a).
Proof. apply (quiet_pure (fun _ => Returned a)). Qed.

Lemma quiet_throw {A} e : quiet P (@throw A e).
Proof. apply (quiet_pure (fun _ => Thrown e)). Qed.

Lemma quiet_lift {A} (r : Result A) : quiet P (lift r).
Proof. apply (quiet_pure (fun _ => r)). Qed.

Lemma quiet_getenv k : quiet P (getenv k).
Proof. apply (quiet_pure (fun w => Returned (env_value w k))). Qed.

Lemma quiet_bind {A B} (m : M A) (k : A -> M B) :
  quiet P m -> (forall a, quiet P (k a)) -> quiet P (bind m k).
Proof.
  intros Hm Hk w. destruct (Hm w) as (D1 & evs1 & T1 & F1).
  unfold bind. destruct (m w) as [[a|e] w1]; cbn [snd] in *.
  - destruct (Hk a w1) as (D2 & evs2 & T2 & F2).
    split; [congruence|]. exists (evs1 ++ evs2). split.
    + rewrite T2, T1. now rewrite app_assoc.
    + now apply Forall_app.
  - split; [exact D1|]. now exists evs1.
Qed.

Lemma quiet_try_catch {A} (m : M A) (h : Error -> M A) :
  quiet P m -> (forall e, quiet P (h e)) -> quiet P (try_catch m h).
Proof.
  intros Hm Hh w. destruct (Hm w) as (D1 & evs1 & T1 & F1).
  unfold try_catch. destruct (m w) as [[a|e] w1]; cbn [snd] in *.
  - split; [exact D1|]. now exists evs1.
  - destruct (Hh e w1) as (D2 & evs2 & T2 & F2).
    split; [congruence|]. exists (evs1 ++ evs2). split.
    + rewrite T2, T1. now rewrite app_assoc.
    + now apply Forall_app.
Qed.

Lemma quiet_call c : P c = true -> quiet P (call c).
Proof.
  intros Hc w. rewrite call_reply.
  destruct (next_reply w 0); (split; [reflexivity|]);
    eexists; (split; [reflexivity|]); repeat constructor; exact Hc.
Qed.

Lemma quiet_notify c : P c = true -> quiet P (notify c).
Proof.
  intros Hc w. split; [reflexivity|].
  eexists; (split; [reflexivity|]); repeat constructor; exact Hc.
Qed.
End Quiet.

Lemma quiet_checkEnv P vars : quiet P (checkEnv vars).
Proof.
  induction vars as [|key rest IH]; cbn [checkEnv]; [apply quiet_ret|].
  apply quiet_bind; [apply quiet_getenv|]. intros v.
  destruct (negb (to_boolean v)); [apply quiet_throw|exact IH].
Qed.



Lemma quiet_getVskToken_attempt i : quiet is_setup (getVskToken_attempt i).
Proof.
  unfold getVskToken_attempt. apply quiet_try_catch.
  - apply quiet_bind; [apply quiet_getenv|]. intros cid.
    apply quiet_bind; [apply quiet_getenv|]. intros csec.
    apply quiet_bind; [apply quiet_call; reflexivity|]. intros data.
    apply quiet_bind; [apply quiet_lift|]. intros tok. apply quiet_ret.
  - intros e. destruct (i =? _); [apply quiet_throw|].
    apply quiet_bind; [apply quiet_notify; reflexivity|]. intros _. apply quiet_ret.
Qed.

Lemma quiet_getVskToken_from fuel i : quiet is_setup (getVskToken_from fuel i).
Proof.
  revert i. induction fuel as [|f IH]; intros i; cbn [getVskToken_from];
    [apply quiet_ret|].
  destruct (i <? _); [|apply quiet_ret].
  apply quiet_bind; [apply quiet_getVskToken_attempt|].
  intros [tok|]; [apply quiet_ret|apply IH].
Qed.

Lemma quiet_getVskToken : quiet is_setup getVskToken.
Proof.
  unfold getVskToken. apply quiet_bind; [apply quiet_checkEnv|].
  intros _. apply quiet_getVskToken_from.
Qed.

(** ** [parseRequestBody] *)

Lemma parseRequestBody_world event w : snd (parseRequestBody event w) = w.
Proof.
  unfold parseRequestBody. destruct (event_body event) as [raw|]; [|reflexivity].
  destruct (negb _); [reflexivity|].
  unfold bind, the_host, try_catch, lift, ret.
  destruct (event_isBase64Encoded event).
  - destruct (Buffer_from_base64 (host w) (VStr raw)); [|reflexivity].
    now destruct (JSON_parse (host w) _).
  - now destruct (JSON_parse (host w) raw).
Qed.

Lemma pair_eta {A B} (p : A * B) a : fst p = a -> p = (a, snd p).
Proof. destruct p. now intros <-. Qed.

Lemma bind_run {A B} (m : M A) (k : A -> M B) w r w' :
  m w = (r, w') ->
  bind m k w = match r with
               | Returned a => k a w'
               | Thrown e => (Thrown e, w')
               end.
Proof. unfold bind. now intros ->. Qed.

Lemma try_catch_run {A} (m : M A) (h : Error -> M A) w r w' :
  m w = (r, w') ->
  try_catch m h w = match r with
                    | Returned a => (Returned a, w')
                    | Thrown e => h e w'
                    end.
Proof. unfold try_catch. now intros ->. Qed.


(** C9.  In a [handleCalc] run whose quote and write succeed, the stored
    [$price] is 0 when the premium of the quote is falsy (absent, [null],
    0) and is the premium itself when it is a non-zero number, while the
    [premium] of the 200 response is the premium of the quote as
    received. *)
Theorem handleCalc_stored_price
        session token params w req data premium object covers stored :
  fst (buildAccidentRequest params w) = Returned req ->
  next_reply w 0 = Ok data ->
  get data "premium" = Returned premium ->
  next_reply w 1 = Ok stored ->
  get data "insuredObject" = Returned object ->
  get object "covers" = Returned covers ->
  exists row w',
    handleCalc session token params w
    = (Returned (json_response 200
                   (VObj [("premium", premium);
                          ("requestId", get_opt data "draftId");
                          ("covers", covers)])), w') /\
    db w' = upsert row (db w) /\
    row_table row = "insurance_calculations" /\
    (to_boolean premium = false ->
     param "$price" (row_values row) = Some (TvDouble (num 0))) /\
    (forall x, premium = VNum x -> num_is_zero x = false ->
               num_is_nan x = false ->
               param "$price" (row_values row) = Some (TvDouble premium)).
Proof.
  intros Hreq H0 Hp H1 Ho Hc.
  assert (Hb : buildAccidentRequest_at (tz_offset_ms w) (now_of w) params
               = Returned req).
  { revert Hreq. unfold buildAccidentRequest, bind, the_tz, Date_now, lift, now_of.
    now destruct (buildAccidentRequest_at _ _ params). }
  rewrite handleCalc_unfold. unfold handleCalc_run.
  rewrite Hb, H0, Hp, H1. cbv zeta.
  assert (Hd : get data "draftId" = Returned (get_opt data "draftId")).
  { apply get_non_nullish. exact (get_returned_non_nullish _ _ _ Hp). }
  unfold calc_response. rewrite Hp, Hd, Ho. cbn [bindR]. rewrite Hc. cbn [bindR].
  eexists (mkRow _ _ _). eexists. split; [reflexivity|].
  split; [reflexivity|]. split; [reflexivity|]. split.
  - intros F. cbn. unfold or_else. now rewrite F.
  - intros x -> Z N. cbn. unfold or_else, to_boolean, num_truthy.
    now rewrite Z, N.
Qed.

(** C10.  When the request carries a policy, a failed document fetch
    makes [handlePdf] return status 500 with the JSON body
    [{error, details}], [details] being the message of the error, whatever
    the upstream status; and whatever the fetch replies, [handlePdf]
    returns a response and throws nothing. *)
Theorem handlePdf_fetch_failure session token body w policy :
  get body "policy" = Returned policy ->
  to_boolean policy = true ->
  (forall e,
      next_reply w 0 = Fail e ->
      exists fetch,
        handlePdf session token body w
        = (Returned
             (mkResponse 500 None
                (JSON_stringify
                   (VObj [("error", VStr "Ошибка при получении PDF");
                          ("details", VStr (err_message e))]))
                None),
           extend [(fetch, Fail e)] w)) /\
  (exists response, fst (handlePdf session token body w) = Returned response).
Proof.
  intros Hp Ht. split.
  - intros e He. eexists. unfold handlePdf. rewrite bind_lift, Hp, Ht. cbn [negb].
    erewrite try_catch_run; [|rewrite bind_call, He; reflexivity].
    reflexivity.
  - unfold handlePdf. rewrite bind_lift, Hp, Ht. cbn [negb].
    unfold try_catch. rewrite bind_call.
    destruct (next_reply w 0) as [data|e].
    + rewrite bind_lift. destruct (toString_base64 _ data); eexists; reflexivity.
    + eexists; reflexivity.
Qed.


(** C5.  A calc request whose quote succeeds and whose database write
    fails: the promise of the handler is rejected with the error of the
    query; no response is returned, the [catch] of the handler is not
    reached. *)
Theorem handler_rejects_on_failed_write :
  fst (handler (event_of calc_input) write_fails_world) = Thrown query_failed
  /\ In (quote_call (VStr "vsk") calc_request, Ok quote_data)
        (trace (snd (handler (event_of calc_input) write_fails_world)))
  /\ db (snd (handler (event_of calc_input) write_fails_world)) = [].
Proof.
  split; [vm_compute; reflexivity|]. split; [|vm_compute; reflexivity].
  vm_compute. do 4 right. left. reflexivity.
Qed.

Lemma getVskToken_retries_witness :
  getVskToken retry_world
  = (Returned (VStr "vsk"),
     extend [(post_token retry_world, Fail timed_out);
             (Sleep 1000, Ok VUndefined);
             (post_token retry_world, Fail (status_error 503));
             (Sleep 2000, Ok VUndefined);
             (post_token retry_world, vsk_ok)] retry_world)
  /\ getVskToken exhausted_world
     = (Thrown (status_error 401),
        extend [(post_token exhausted_world, Fail timed_out);
                (Sleep 1000, Ok VUndefined);
                (post_token exhausted_world, Fail (status_error 503));
                (Sleep 2000, Ok VUndefined);
                (post_token exhausted_world, Fail (status_error 401))]
               exhausted_world).
Proof.
  split.
  - apply (proj1 (getVskToken_retries retry_world eq_refl eq_refl)
             timed_out (status_error 503)
             (VObj [("access_token", VStr "vsk")]) (VStr "vsk"));
      reflexivity.
  - apply (proj2 (getVskToken_retries exhausted_world eq_refl eq_refl)
             timed_out (status_error 503) (status_error 401));
      reflexivity.
Defined.

Lemma sumInsured_coercion_witness :
  (exists out,
      get_opt (get_opt calc_request "insuredObject") "covers" = VArr out /\
      nth_error out 0 = Some (VObj [("sumInsured", num 100000)])) /\
  sumInsured_of (num 250000) = num 250000 /\
  sumInsured_of (VStr "abc") = num 50000.
Proof.
  destruct (sumInsured_coercion 0 t0 calc_input calc_request
              [VObj [("sumInsured", num 100000)]] 0%nat
              (VObj [("sumInsured", num 100000)]) eq_refl eq_refl eq_refl)
    as (H1 & H2 & H3 & _).
  split; [exact H1|]. split.
  - apply H2. cbn. auto.
  - apply H3. auto.
Defined.

Lemma buildAccidentRequest_pure_witness :
  exists p1 p2,
    buildAccidentRequest_at 0 t0 calc_input = Returned (VObj p1) /\
    buildAccidentRequest_at moscow_offset_ms 0 calc_input = Returned (VObj p2) /\
    without "issueDate" p1 = without "issueDate" p2 /\
    lookup "startDate" p1 = Some (VStr "2025-01-01").
Proof.
  destruct (buildAccidentRequest_pure calc_input eq_refl 0 t0 moscow_offset_ms 0)
    as (p1 & p2 & H1 & H2 & H3 & _ & H5 & _).
  exists p1, p2. auto.
Defined.

(** C8, counterexample.  With both credentials missing the error names
    the client id only. *)
Lemma missing_both_names_only_the_first :
  missing no_credentials_world "VSK_CLIENT_ID"
  /\ missing no_credentials_world "VSK_CLIENT_SECRET"
  /\ getVskToken no_credentials_world
     = (Thrown (new_Error "Missing env: VSK_CLIENT_ID"), no_credentials_world)
  /\ contains "VSK_CLIENT_SECRET" "Missing env: VSK_CLIENT_ID" = false.
Proof. repeat split. Qed.

Lemma getVskToken_missing_credential_witness :
  getVskToken no_credentials_world
  = (Thrown (new_Error "Missing env: VSK_CLIENT_ID"), no_credentials_world)
  /\ getVskToken no_secret_world
     = (Thrown (new_Error "Missing env: VSK_CLIENT_SECRET"), no_secret_world).
Proof.
  split.
  - apply (proj1 (getVskToken_missing_credential no_credentials_world)).
    reflexivity.
  - apply (proj2 (getVskToken_missing_credential no_secret_world));
      reflexivity.
Defined.

Lemma handleCalc_stored_price_witness :
  (exists row w',
      handleCalc a_session (VStr "vsk") calc_input free_quote_world
      = (Returned (json_response 200
                     (VObj [("premium", num 0); ("requestId", VStr "D2");
                            ("covers", VArr [])])), w') /\
      db w' = upsert row (db free_quote_world) /\
      param "$price" (row_values row) = Some (TvDouble (num 0)))
  /\ (exists row w',
      handleCalc a_session (VStr "vsk") calc_input quote_world
      = (Returned (json_response 200
                     (VObj [("premium", VNum (num_of_decimal false 12345 (-1)));
                            ("requestId", VStr "D1");
                            ("covers", VArr [VObj [("sumInsured", num 100000)]])])),
         w') /\
      db w' = upsert row (db quote_world) /\
      param "$price" (row_values row)
      = Some (TvDouble (VNum (num_of_decimal false 12345 (-1))))).
Proof.
  split.
  - destruct (handleCalc_stored_price a_session (VStr "vsk") calc_input
                free_quote_world calc_request free_quote (num 0)
                (VObj [("covers", VArr [])]) (VArr []) VUndefined
                eq_refl eq_refl eq_refl eq_refl eq_refl eq_refl)
      as (row & w' & H1 & H2 & _ & H4 & _).
    exists row, w'. split; [exact H1|]. split; [exact H2|]. apply H4. reflexivity.
  - destruct (handleCalc_stored_price a_session (VStr "vsk") calc_input
                quote_world calc_request quote_data
                (VNum (num_of_decimal false 12345 (-1)))
                (VObj [("covers", VArr [VObj [("sumInsured", num 100000)]])])
                (VArr [VObj [("sumInsured", num 100000)]]) VUndefined
                eq_refl eq_refl eq_refl eq_refl eq_refl eq_refl)
      as (row & w' & H1 & H2 & _ & _ & H5).
    exists row, w'. split; [exact H1|]. split; [exact H2|].
    apply (H5 (num_of_decimal false 12345 (-1))); reflexivity.
Defined.

Lemma handlePdf_fetch_failure_witness :
  (exists fetch,
      handlePdf a_session (VStr "vsk") pdf_request pdf_fails_world
      = (Returned
           (mkResponse 500 None
              (JSON_stringify
                 (VObj [("error", VStr "Ошибка при получении PDF");
                        ("details", VStr "Request failed with status code 404")]))
              None),
         extend [(fetch, Fail (status_error 404))] pdf_fails_world))
  /\ (exists response,
         fst (handlePdf a_session (VStr "vsk") pdf_request pdf_fails_world)
         = Returned response).
Proof.
  destruct (handlePdf_fetch_failure a_session (VStr "vsk") pdf_request
              pdf_fails_world (VStr "P-1") eq_refl eq_refl) as [H1 H2].
  split; [|exact H2]. exact (H1 (status_error 404) eq_refl).
Defined.

(* ================================================================== *)
(** * Part VI: further properties *)
(* ================================================================== *)

(** ** More on [buildAccidentRequest] *)

Lemma Date_of_local_at zone offset t :
  Date_of_local zone (civil_at offset t)
  = (t + offset) - (t + offset) mod 1000 - zone.
Proof.
  unfold Date_of_local, civil_at.
  pose proof (days_from_civil_from_days ((t + offset) / msPerDay)) as R.
  destruct (civil_from_days ((t + offset) / msPerDay)) as [[y m] d].
  cbn [year month day hour minute second]. rewrite R.
  unfold msPerDay. Z.div_mod_to_equations. lia.
Qed.

Lemma same_day_in_zone x zone :
  zone mod 1000 = 0 ->
  (x - x mod 1000 - zone) / msPerDay = (x - zone) / msPerDay.
Proof. unfold msPerDay. intros H. Z.div_mod_to_equations. lia. Qed.

(** X2.  In a process whose zone is [tz] east of UTC (a whole number of
    seconds), the date of [issueDate] is the calendar date at the offset
    [3 h - tz] from UTC: the Moscow date when [tz] is 0, the UTC date
    when the process itself runs on Moscow time. *)
Theorem issueDate_in_zone tz now :
  tz mod 1000 = 0 ->
  issueDate_at tz now
  = (iso_date (civil_from_days ((now + moscow_offset_ms - tz) / msPerDay))
     ++ "T23:59:59+03:00")%string.
Proof.
  intros H. unfold issueDate_at, toLocaleString_enUS_Moscow.
  rewrite Date_of_local_at, toISOString_date, same_day_in_zone by exact H.
  reflexivity.
Qed.

Lemma issueDate_in_zone_witness :
  issueDate_at moscow_offset_ms 1793572200000
  = (iso_date (civil_from_days
                 ((1793572200000 + moscow_offset_ms - moscow_offset_ms) / msPerDay))
     ++ "T23:59:59+03:00")%string.
Proof. apply (issueDate_in_zone moscow_offset_ms 1793572200000). reflexivity. Defined.

Lemma get_set_prop_other props k v k' :
  k' <> k -> get (VObj (set_prop props k v)) k' = get (VObj props) k'.
Proof. intros N. cbn [get]. now rewrite lookup_set_prop_other. Qed.

(** X3.  An [issueDate] supplied by the client has no effect on the
    request. *)
Theorem client_issueDate_ignored tz now props v :
  buildAccidentRequest_at tz now (VObj (set_prop props "issueDate" v))
  = buildAccidentRequest_at tz now (VObj props).
Proof.
  unfold buildAccidentRequest_at.
  rewrite !get_set_prop_other by discriminate. reflexivity.
Qed.

Lemma get_throws_TypeError v k e : get v k = Thrown e -> err_name e = "TypeError".
Proof.
  destruct v; cbn [get]; try discriminate; try (intros [= <-]; reflexivity).
  destruct (lookup k props); discriminate.
Qed.

Lemma mapR_throws {A B} (f : A -> Result B) (P : Error -> Prop) l e :
  (forall a e', f a = Thrown e' -> P e') -> mapR f l = Thrown e -> P e.
Proof.
  intros Hf. induction l as [|x l IH]; cbn [mapR]; [discriminate|].
  destruct (f x) eqn:Fx; cbn [bindR].
  - destruct (mapR f l); cbn [bindR]; [discriminate|]. intros [= <-]. now apply IH.
  - intros [= <-]. eauto.
Qed.

Lemma array_map_throws_TypeError path v f e :
  (forall a e', f a = Thrown e' -> err_name e' = "TypeError") ->
  array_map path v f = Thrown e -> err_name e = "TypeError".
Proof.
  intros Hf. destruct v; cbn [array_map]; try (intros [= <-]; reflexivity).
  destruct (mapR f elems) eqn:E; cbn [bindR]; [discriminate|].
  intros [= <-]. exact (mapR_throws f _ _ _ Hf E).
Qed.

Lemma cover_of_throws_TypeError c e : cover_of c = Thrown e -> err_name e = "TypeError".
Proof.
  unfold cover_of. destruct (get c "sumInsured") eqn:G; cbn [bindR]; [discriminate|].
  intros [= <-]. exact (get_throws_TypeError _ _ _ G).
Qed.

Lemma insured_of_throws_TypeError i e : insured_of i = Thrown e -> err_name e = "TypeError".
Proof.
  unfold insured_of. destruct (get i "person") eqn:G; cbn [bindR].
  - destruct (get i "additionalFactors") eqn:G2; cbn [bindR]; [discriminate|].
    intros [= <-]. exact (get_throws_TypeError _ _ _ G2).
  - intros [= <-]. exact (get_throws_TypeError _ _ _ G).
Qed.

(** X4.  Whenever [buildAccidentRequest] returns, the request has
    exactly the properties product, startDate, endDate, issueDate,
    policyHolder and insuredObject, in this order, with the [issueDate]
    computed from the clock; whenever it fails, it fails with a
    TypeError. *)
Theorem buildAccidentRequest_shape tz now input :
  match buildAccidentRequest_at tz now input with
  | Returned req =>
      exists props,
        req = VObj props /\ map fst props = request_keys /\
        lookup "issueDate" props = Some (VStr (issueDate_at tz now))
  | Thrown e => err_name e = "TypeError"
  end.
Proof.
  unfold buildAccidentRequest_at. cbv zeta.
  repeat match goal with
         | |- match bindR (get ?v ?k) _ with _ => _ end =>
             let G := fresh "G" in
             destruct (get v k) eqn:G; cbn [bindR];
             [|exact (get_throws_TypeError _ _ _ G)]
         | |- match bindR (array_map ?p ?v ?f) _ with _ => _ end =>
             let G := fresh "G" in
             destruct (array_map p v f) eqn:G; cbn [bindR];
             [|first [ apply (array_map_throws_TypeError _ _ _ _
                                cover_of_throws_TypeError G)
                     | apply (array_map_throws_TypeError _ _ _ _
                                insured_of_throws_TypeError G) ]]
         end.
  eexists. repeat split.
Qed.

(** X5.  The [sumInsured] sent to the partner is always a number that is
    neither zero nor NaN, and every such number given by the client is
    sent as it is, in or out of the four tiers. *)
Theorem sumInsured_of_truthy_number :
  (forall v, exists x, sumInsured_of v = VNum x /\ num_truthy x = true) /\
  (forall x, num_truthy x = true -> sumInsured_of (VNum x) = VNum x).
Proof.
  split.
  - intros v. unfold sumInsured_of, or_else, Number.
    cbn [to_boolean]. destruct (num_truthy (to_number v)) eqn:T.
    + eauto.
    + eexists; split; reflexivity.
  - intros x T. unfold sumInsured_of, or_else, Number. cbn [to_boolean to_number].
    now rewrite T.
Qed.

Lemma sumInsured_of_truthy_number_witness :
  sumInsured_of (num (-7)) = num (-7).
Proof.
  apply (proj2 sumInsured_of_truthy_number (num_of_Z (-7))). reflexivity.
Defined.

(** X6.  A client input on which [buildAccidentRequest] fails makes
    [handleCalc], [handlePay] and [handleSample] fail with the same
    error before any external call. *)
Theorem malformed_input_fails_before_any_call session token params w e :
  fst (buildAccidentRequest params w) = Thrown e ->
  handleCalc session token params w = (Thrown e, w) /\
  handlePay session token params w = (Thrown e, w) /\
  handleSample session token params w = (Thrown e, w).
Proof.
  intros H.
  assert (Hb : buildAccidentRequest_at (tz_offset_ms w) (now_of w) params = Thrown e).
  { revert H. unfold buildAccidentRequest, bind, the_tz, Date_now, lift, now_of.
    now destruct (buildAccidentRequest_at _ _ params). }
  repeat split.
  - rewrite handleCalc_unfold. unfold handleCalc_run. now rewrite Hb.
  - rewrite handlePay_unfold. unfold handlePay_run. now rewrite Hb.
  - unfold handleSample. erewrite bind_run.
    2:{ unfold handleCreatePolicy. now rewrite bind_buildAccidentRequest, Hb. }
    reflexivity.
Qed.

Lemma malformed_input_fails_before_any_call_witness :
  handleCalc a_session (VStr "vsk") no_holder quote_world
  = (Thrown (cannot_read "undefined" "person"), quote_world) /\
  handlePay a_session (VStr "vsk") no_holder quote_world
  = (Thrown (cannot_read "undefined" "person"), quote_world) /\
  handleSample a_session (VStr "vsk") no_holder quote_world
  = (Thrown (cannot_read "undefined" "person"), quote_world).
Proof.
  apply (malformed_input_fails_before_any_call a_session (VStr "vsk") no_holder
           quote_world (cannot_read "undefined" "person")).
  reflexivity.
Defined.

Lemma checkEnv_run vars w :
  checkEnv vars w
  = match find (is_missing w) vars with
    | None => (Returned tt, w)
    | Some key => (Thrown (new_Error ("Missing env: " ++ key)), w)
    end.
Proof.
  induction vars as [|key rest IH]; cbn [checkEnv find]; [reflexivity|].
  unfold bind, getenv, is_missing at 1.
  destruct (negb (to_boolean (env_value w key))); [reflexivity|exact IH].
Qed.

(** X7.  [checkEnv] returns, with no effect, when every variable is set
    to a non-empty value; otherwise it throws ["Missing env: "] followed
    by the first variable of the list that is unset or empty. *)
Theorem checkEnv_first_missing vars w :
  (forallb (fun key => to_boolean (env_value w key)) vars = true ->
   checkEnv vars w = (Returned tt, w)) /\
  (forall before key after,
      vars = before ++ key :: after ->
      forallb (fun k => to_boolean (env_value w k)) before = true ->
      to_boolean (env_value w key) = false ->
      checkEnv vars w = (Thrown (new_Error ("Missing env: " ++ key)), w)).
Proof.
  split.
  - induction vars as [|key rest IH]; cbn [forallb checkEnv]; [reflexivity|].
    intros H. apply andb_prop in H as [Hk Hrest].
    unfold bind, getenv. rewrite Hk. now apply IH.
  - intros before. revert vars.
    induction before as [|b before IH]; intros vars key after -> Hb Hk;
      cbn [app checkEnv]; unfold bind, getenv.
    + now rewrite Hk.
    + cbn [forallb] in Hb. apply andb_prop in Hb as [Hb1 Hb2]. rewrite Hb1.
      cbn [negb]. now apply (IH _ key after).
Qed.

Lemma checkEnv_first_missing_witness :
  checkEnv ["YDB_ENDPOINT"; "VSK_CLIENT_ID"; "VSK_CLIENT_SECRET"]
           no_credentials_world
  = (Thrown (new_Error "Missing env: VSK_CLIENT_ID"), no_credentials_world)
  /\ checkEnv ["YDB_ENDPOINT"; "YDB_DATABASE"] no_credentials_world
     = (Returned tt, no_credentials_world).
Proof.
  split.
  - apply (proj2 (checkEnv_first_missing
                    ["YDB_ENDPOINT"; "VSK_CLIENT_ID"; "VSK_CLIENT_SECRET"]
                    no_credentials_world)
             ["YDB_ENDPOINT"] "VSK_CLIENT_ID" ["VSK_CLIENT_SECRET"]);
      reflexivity.
  - apply (proj1 (checkEnv_first_missing ["YDB_ENDPOINT"; "YDB_DATABASE"]
                    no_credentials_world)).
    reflexivity.
Defined.

(** X8.  [fetchIamToken] makes exactly one call, the metadata request;
    a token it returns is truthy and is the [access_token] of the reply;
    every failure (network, empty reply, missing or empty token) is
    thrown as the same generic error. *)
Theorem fetchIamToken_outcome w :
  trace (snd (fetchIamToken w)) = trace w ++ [(Http iam_request, next_reply w 0)]
  /\ match fst (fetchIamToken w) with
     | Returned token =>
         to_boolean token = true /\
         exists data, next_reply w 0 = Ok data /\
                      get data "access_token" = Returned token
     | Thrown e => e = iam_failure
     end.
Proof.
  unfold fetchIamToken, try_catch. rewrite bind_call. fold iam_request.
  destruct (next_reply w 0) as [data|e]; [|split; reflexivity].
  destruct (to_boolean data) eqn:Td; cbn [negb]; [|split; reflexivity].
  rewrite bind_lift.
  destruct (get data "access_token") as [tok|e] eqn:G; [|split; reflexivity].
  destruct (to_boolean tok) eqn:Tt; cbn [negb]; [|split; reflexivity].
  split; [reflexivity|]. cbn [fst]. split; [exact Tt|]. eauto.
Qed.

Lemma getDriver_cached w d :
  present w "YDB_ENDPOINT" -> present w "YDB_DATABASE" ->
  driverInstance w = Some d ->
  getDriver w = (Returned d, w).
Proof.
  unfold present. intros He Hd Hi. unfold getDriver.
  rewrite !bind_getenv, He, Hd. cbn [negb orb].
  unfold bind, ret. now rewrite Hi.
Qed.

Lemma fetchIamToken_env w : env (snd (fetchIamToken w)) = env w.
Proof.
  unfold fetchIamToken, try_catch. rewrite bind_call.
  destruct (next_reply w 0); [|reflexivity].
  destruct (negb (to_boolean data)); [reflexivity|].
  rewrite bind_lift. destruct (get data "access_token"); [|reflexivity].
  now destruct (negb (to_boolean a)).
Qed.

Lemma getDriver_returned w d :
  fst (getDriver w) = Returned d ->
  present w "YDB_ENDPOINT" /\ present w "YDB_DATABASE" /\
  driverInstance (snd (getDriver w)) = Some d /\
  env (snd (getDriver w)) = env w.
Proof.
  intros H. destruct (getDriver w) as [r w'] eqn:E. cbn [fst snd] in *.
  subst r. revert E. unfold getDriver, present. rewrite !bind_getenv.
  destruct (to_boolean (env_value w "YDB_ENDPOINT")); cbn [negb orb];
    [|discriminate].
  destruct (to_boolean (env_value w "YDB_DATABASE")); cbn [negb orb];
    [|discriminate].
  unfold bind at 1.
  destruct (driverInstance w) as [d0|] eqn:Hi.
  - unfold ret. intros [= <- <-]. repeat split; auto.
  - unfold bind at 1. pose proof (fetchIamToken_env w) as Ew1.
    destruct (fetchIamToken w) as [[tok|e] w1]; [|discriminate].
    cbn [snd] in Ew1.
    unfold bind at 1. rewrite bind_call.
    destruct (next_reply _ 0) as [r|e]; [|discriminate].
    destruct (negb (to_boolean r)); [discriminate|].
    unfold ret. intros [= <- <-]. repeat split. exact Ew1.
Qed.

(** X9.  Once [getDriver] has returned a driver, calling it again
    returns the same driver without any external call. *)
Theorem getDriver_initialises_once w d :
  fst (getDriver w) = Returned d ->
  getDriver (snd (getDriver w)) = (Returned d, snd (getDriver w)).
Proof.
  intros H. destruct (getDriver_returned w d H) as (He & Hd & Hi & Henv).
  apply getDriver_cached; [| |exact Hi]; unfold present, env_value in *;
    now rewrite Henv.
Qed.

Lemma getDriver_initialises_once_witness :
  getDriver (snd (getDriver frobnicate_world))
  = (Returned a_driver, snd (getDriver frobnicate_world)).
Proof. apply (getDriver_initialises_once frobnicate_world a_driver). reflexivity. Defined.

(** X10.  When the driver does not become ready, [getDriver] throws
    "YDB not ready" but has already cached the driver: the next call
    returns that driver without asking again whether it is ready. *)
Theorem getDriver_not_ready_stays_cached w data token ready :
  present w "YDB_ENDPOINT" -> present w "YDB_DATABASE" ->
  driverInstance w = None ->
  next_reply w 0 = Ok data ->
  to_boolean data = true ->
  get data "access_token" = Returned token ->
  to_boolean token = true ->
  next_reply w 1 = Ok ready ->
  to_boolean ready = false ->
  exists d,
    fst (getDriver w) = Thrown (new_Error "YDB not ready") /\
    driverInstance (snd (getDriver w)) = Some d /\
    getDriver (snd (getDriver w)) = (Returned d, snd (getDriver w)).
Proof.
  unfold present. intros He Hd Hi H0 Td G Tt H1 Tr.
  assert (F : fetchIamToken w = (Returned token, extend [(Http iam_request, Ok data)] w)).
  { unfold fetchIamToken, try_catch. rewrite bind_call, H0. fold iam_request.
    rewrite Td. cbn [negb]. rewrite bind_lift, G, Tt. reflexivity. }
  assert (R : getDriver w
              = (Thrown (new_Error "YDB not ready"),
                 extend [(DriverReady
                            (mkDriver (to_string (env_value w "YDB_ENDPOINT"))
                                      (to_string (env_value w "YDB_DATABASE"))
                                      token) 5000, Ok ready)]
                        (set_driverInstance
                           (Some (mkDriver (to_string (env_value w "YDB_ENDPOINT"))
                                           (to_string (env_value w "YDB_DATABASE"))
                                           token))
                           (extend [(Http iam_request, Ok data)] w)))).
  { unfold getDriver. rewrite !bind_getenv, He, Hd. cbn [negb orb].
    unfold bind at 1. rewrite Hi.
    erewrite bind_run; [|exact F]. cbv beta iota.
    unfold bind at 1. rewrite bind_call.
    assert (N : next_reply
                  (set_driverInstance
                     (Some (mkDriver (to_string (env_value w "YDB_ENDPOINT"))
                                     (to_string (env_value w "YDB_DATABASE")) token))
                     (extend [(Http iam_request, Ok data)] w)) 0 = Ok ready).
    { rewrite <- H1. unfold next_reply. cbn. rewrite length_app. cbn.
      now rewrite Nat.add_0_r. }
    rewrite N, Tr. reflexivity. }
  eexists. rewrite R. cbn [fst snd]. split; [reflexivity|].
  split; [reflexivity|].
  apply getDriver_cached; [exact He|exact Hd|reflexivity].
Qed.

Lemma getDriver_not_ready_stays_cached_witness :
  exists d,
    fst (getDriver not_ready_world) = Thrown (new_Error "YDB not ready") /\
    driverInstance (snd (getDriver not_ready_world)) = Some d /\
    getDriver (snd (getDriver not_ready_world))
    = (Returned d, snd (getDriver not_ready_world)).
Proof.
  apply (getDriver_not_ready_stays_cached not_ready_world
           (VObj [("access_token", VStr "iam")]) (VStr "iam") (VBool false));
    reflexivity.
Defined.

(** X11.  Without a database endpoint or a database name [getDriver]
    fails before any external call, also when a driver is cached. *)
Theorem getDriver_requires_configuration w :
  missing w "YDB_ENDPOINT" \/ missing w "YDB_DATABASE" ->
  getDriver w = (Thrown (new_Error "Не заданы параметры YDB"), w).
Proof.
  unfold missing. intros H. unfold getDriver. rewrite !bind_getenv.
  destruct H as [H|H]; rewrite H; cbn [negb orb]; [reflexivity|].
  now rewrite orb_true_r.
Qed.

Lemma getDriver_requires_configuration_witness :
  getDriver cached_unconfigured_world
  = (Thrown (new_Error "Не заданы параметры YDB"), cached_unconfigured_world).
Proof.
  apply (getDriver_requires_configuration cached_unconfigured_world).
  left. reflexivity.
Defined.

Lemma attempt_cases i w :
  (exists tok r,
      getVskToken_attempt i w
      = (Returned (Some tok), extend [(post_token w, r)] w))
  \/ (exists e r,
         (i =? VSK_API_RETRIES - 1) = true /\
         getVskToken_attempt i w = (Thrown e, extend [(post_token w, r)] w))
  \/ (exists r,
         (i =? VSK_API_RETRIES - 1) = false /\
         getVskToken_attempt i w
         = (Returned None,
            extend [(post_token w, r); (Sleep (1000 * (i + 1)), Ok VUndefined)] w)).
Proof.
  assert (Sl : forall (r : Reply),
             (_ <- notify (Sleep (1000 * (i + 1)));; ret (@None Value))
               (extend [(post_token w, r)] w)
             = (Returned None,
                extend [(post_token w, r);
                        (Sleep (1000 * (i + 1)), Ok VUndefined)] w)).
  { intros r. unfold bind, notify, ret.
    fold (extend [(Sleep (1000 * (i + 1)), Ok VUndefined)]
                 (extend [(post_token w, r)] w)).
    now rewrite extend_extend. }
  unfold getVskToken_attempt, try_catch. rewrite !bind_getenv, bind_call.
  fold (post_token w).
  destruct (i =? VSK_API_RETRIES - 1) eqn:Ei.
  - destruct (next_reply w 0) as [data|e].
    + rewrite bind_lift. destruct (get data "access_token") as [tok|e].
      * left. exists tok, (Ok data). reflexivity.
      * right. left. exists e, (Ok data). split; reflexivity.
    + right. left. exists e, (Fail e). split; reflexivity.
  - destruct (next_reply w 0) as [data|e].
    + rewrite bind_lift. destruct (get data "access_token") as [tok|e].
      * left. exists tok, (Ok data). reflexivity.
      * right. right. exists (Ok data). split; [reflexivity|apply Sl].
    + right. right. exists (Fail e). split; [reflexivity|apply Sl].
Qed.

Ltac bounded_run :=
  split; [reflexivity|];
  split; [cbn; lia|];
  split; [cbn; auto|];
  repeat (apply Forall_cons; [cbn; eauto|]); apply Forall_nil.

(** X12.  Whatever the replies, [getVskToken] changes nothing but the
    trace, makes at most three requests, all of them the OAuth exchange,
    and waits 1000 ms, then 2000 ms, between them: never after the last
    attempt. *)
Theorem getVskToken_bounded w :
  exists evs,
    snd (getVskToken w) = extend evs w /\
    (posts evs <= 3)%nat /\
    (sleeps evs = [] \/ sleeps evs = [1000] \/ sleeps evs = [1000; 2000]) /\
    Forall (fun ev => fst ev = post_token w \/ exists ms, fst ev = Sleep ms) evs.
Proof.
  unfold getVskToken. unfold bind at 1. rewrite checkEnv_run.
  destruct (find (is_missing w) _).
  { exists []. rewrite extend_nil. bounded_run. }
  change (Z.to_nat VSK_API_RETRIES) with 3%nat. cbn [getVskToken_from].
  change (0 <? VSK_API_RETRIES) with true. cbv iota.
  unfold bind at 1.
  destruct (attempt_cases 0 w) as [(tok & r & ->)|[(e & r & Hi & ->)|(r & _ & ->)]].
  { exists [(post_token w, r)]. bounded_run. }
  { exists [(post_token w, r)]. bounded_run. }
  change (0 + 1 <? VSK_API_RETRIES) with true. cbv iota.
  unfold bind at 1.
  set (w1 := extend _ w).
  destruct (attempt_cases (0 + 1) w1)
    as [(tok & r1 & ->)|[(e & r1 & Hi & ->)|(r1 & _ & ->)]];
    subst w1; rewrite extend_extend; cbn [app].
  { eexists. bounded_run. }
  { discriminate Hi. }
  change (0 + 1 + 1 <? VSK_API_RETRIES) with true. cbv iota.
  unfold bind at 1.
  set (w2 := extend _ w).
  destruct (attempt_cases (0 + 1 + 1) w2)
    as [(tok & r2 & ->)|[(e & r2 & Hi & ->)|(r2 & Hi & _)]];
    subst w2; try rewrite extend_extend; cbn [app].
  { eexists. bounded_run. }
  { eexists. bounded_run. }
  { discriminate Hi. }
Qed.

(** X13.  When the first OAuth exchange is answered, [getVskToken]
    returns the [access_token] of the reply after this single request,
    with no wait, and without checking it: a reply without
    [access_token] gives [undefined]. *)
Theorem getVskToken_first_attempt w d :
  present w "VSK_CLIENT_ID" -> present w "VSK_CLIENT_SECRET" ->
  next_reply w 0 = Ok d ->
  non_nullish d = true ->
  getVskToken w = (Returned (get_opt d "access_token"),
                   extend [(post_token w, Ok d)] w).
Proof.
  intros Hid Hsec H0 Hd.
  unfold getVskToken. unfold bind at 1.
  rewrite (checkEnv_present _ _ _ Hid Hsec).
  change (Z.to_nat VSK_API_RETRIES) with 3%nat. cbn [getVskToken_from].
  change (0 <? VSK_API_RETRIES) with true. cbv iota.
  unfold bind at 1.
  now rewrite (attempt_ok _ _ d _ H0 (get_non_nullish _ _ Hd)).
Qed.

Lemma getVskToken_first_attempt_witness :
  getVskToken once_world
  = (Returned (VStr "vsk"), extend [(post_token once_world, vsk_ok)] once_world)
  /\ getVskToken tokenless_world
     = (Returned VUndefined,
        extend [(post_token tokenless_world, Ok (VObj []))] tokenless_world).
Proof.
  split.
  - apply (getVskToken_first_attempt once_world
             (VObj [("access_token", VStr "vsk")])); reflexivity.
  - apply (getVskToken_first_attempt tokenless_world (VObj [])); reflexivity.
Defined.

(** X14.  A successful reply whose body is [null] counts as a failed
    attempt: [getVskToken] waits and asks again. *)
Theorem getVskToken_empty_reply_is_retried w d tok :
  present w "VSK_CLIENT_ID" -> present w "VSK_CLIENT_SECRET" ->
  next_reply w 0 = Ok VNull ->
  next_reply w 2 = Ok d ->
  get d "access_token" = Returned tok ->
  getVskToken w
  = (Returned tok,
     extend [(post_token w, Ok VNull); (Sleep 1000, Ok VUndefined);
             (post_token w, Ok d)] w).
Proof.
  intros Hid Hsec H0 H2 G.
  unfold getVskToken. unfold bind at 1.
  rewrite (checkEnv_present _ _ _ Hid Hsec).
  change (Z.to_nat VSK_API_RETRIES) with 3%nat. cbn [getVskToken_from].
  change (0 <? VSK_API_RETRIES) with true. cbv iota.
  unfold bind at 1.
  assert (A : getVskToken_attempt 0 w
              = (Returned None,
                 extend [(post_token w, Ok VNull); (Sleep 1000, Ok VUndefined)] w)).
  { unfold getVskToken_attempt, try_catch. rewrite !bind_getenv, bind_call, H0.
    rewrite bind_lift. cbn [get]. change (0 =? VSK_API_RETRIES - 1) with false.
    cbv iota. unfold bind, notify, ret, extend, set_trace, post_token.
    destruct w; cbn. now rewrite <- app_assoc. }
  rewrite A. change (0 + 1 <? VSK_API_RETRIES) with true. cbv iota.
  unfold bind at 1.
  rewrite (attempt_ok _ _ d tok); [|rewrite next_reply_extend; exact H2|exact G].
  now rewrite extend_extend.
Qed.

Lemma getVskToken_empty_reply_is_retried_witness :
  getVskToken empty_reply_world
  = (Returned (VStr "vsk"),
     extend [(post_token empty_reply_world, Ok VNull);
             (Sleep 1000, Ok VUndefined);
             (post_token empty_reply_world, vsk_ok)] empty_reply_world).
Proof.
  apply (getVskToken_empty_reply_is_retried empty_reply_world
           (VObj [("access_token", VStr "vsk")]) (VStr "vsk")); reflexivity.
Defined.

(** ** More on the dispatcher *)

(** X15.  On an event that is not base64-encoded [parseRequestBody]
    throws nothing and has no effect; it returns [null] for an absent
    body, an empty body and a body that is not JSON. *)
Theorem parseRequestBody_plain event w :
  event_isBase64Encoded event = false ->
  exists v,
    parseRequestBody event w = (Returned v, w) /\
    (event_body event = None -> v = VNull) /\
    (event_body event = Some EmptyString -> v = VNull) /\
    (forall raw e, event_body event = Some raw ->
                   JSON_parse (host w) raw = Thrown e -> v = VNull).
Proof.
  intros Hb. unfold parseRequestBody.
  destruct (event_body event) as [raw|].
  - destruct raw as [|c raw].
    + exists VNull. cbn. repeat split; auto.
    + cbn [to_boolean String.eqb negb]. rewrite Hb.
      unfold bind, the_host, ret, try_catch, lift.
      destruct (JSON_parse (host w) (String c raw)) as [v|e] eqn:J.
      * exists v. repeat split; try discriminate.
        intros raw' e' [= <-]. congruence.
      * exists VNull. repeat split; auto.
  - exists VNull. repeat split; auto.
Qed.

Lemma parseRequestBody_plain_witness :
  exists v,
    parseRequestBody unparseable_event picky_world = (Returned v, picky_world) /\
    v = VNull.
Proof.
  destruct (parseRequestBody_plain unparseable_event picky_world eq_refl)
    as (v & H1 & _ & _ & H4).
  exists v. split; [exact H1|].
  exact (H4 "{oops" (mkError "SyntaxError" "Unexpected token o" None)
            eq_refl eq_refl).
Defined.

(** X16.  A request without a truthy [action] (also one whose body is
    absent or is not JSON) is answered 400 "action missing" without any
    external call. *)
Theorem handler_action_missing event w body :
  fst (parseRequestBody event w) = Returned body ->
  to_boolean (get_opt body "action") = false ->
  handler event w = (Returned action_missing_response, w).
Proof.
  intros Hp Ha. apply pair_eta in Hp. rewrite parseRequestBody_world in Hp.
  unfold handler. rewrite (bind_run _ _ _ _ _ Hp), Ha. reflexivity.
Qed.

Lemma handler_action_missing_witness :
  handler unparseable_event picky_world
  = (Returned action_missing_response, picky_world).
Proof.
  apply (handler_action_missing unparseable_event picky_world VNull);
    reflexivity.
Defined.

(** X17.  When [getDriver] fails, the handler returns status 500 with
    the message of the error; no session is opened and no partner call
    is made. *)
Theorem handler_driver_failure event w body e :
  fst (parseRequestBody event w) = Returned body ->
  to_boolean (get_opt body "action") = true ->
  fst (getDriver w) = Thrown e ->
  handler event w
  = (Returned (json_response 500 (VObj [("error", VStr (err_message e))])),
     snd (getDriver w)).
Proof.
  intros Hp Ha Hd. apply pair_eta in Hp. rewrite parseRequestBody_world in Hp.
  apply pair_eta in Hd.
  unfold handler. rewrite (bind_run _ _ _ _ _ Hp), Ha. cbn [negb].
  erewrite bind_run.
  2:{ erewrite try_catch_run; [|erewrite bind_run; [|exact Hd]; reflexivity].
      reflexivity. }
  reflexivity.
Qed.

Lemma handler_driver_failure_witness :
  handler (event_of calc_input) unconfigured_world
  = (Returned (json_response 500
                 (VObj [("error", VStr "Не заданы параметры YDB")])),
     unconfigured_world).
Proof.
  apply (handler_driver_failure (event_of calc_input) unconfigured_world
           calc_input (new_Error "Не заданы параметры YDB"));
    vm_compute; reflexivity.
Defined.

(** X18.  An error raised once the driver is obtained (the session
    cannot be acquired, or the work inside the session fails) is not
    turned into a response: the promise of the handler is rejected with
    that error, the session having been released. *)
Theorem handler_failure_in_session_escapes event w body driver e :
  fst (parseRequestBody event w) = Returned body ->
  to_boolean (get_opt body "action") = true ->
  fst (getDriver w) = Returned driver ->
  (next_reply (snd (getDriver w)) 0 = Fail e ->
   handler event w
   = (Thrown e, extend [(AcquireSession driver, Fail e)] (snd (getDriver w)))) /\
  (forall session,
      next_reply (snd (getDriver w)) 0 = Ok session ->
      fst (dispatch body (mkSession driver)
             (extend [(AcquireSession driver, Ok session)] (snd (getDriver w))))
      = Thrown e ->
      handler event w
      = (Thrown e,
         extend [(ReleaseSession, Ok VUndefined)]
           (snd (dispatch body (mkSession driver)
                   (extend [(AcquireSession driver, Ok session)]
                           (snd (getDriver w))))))).
Proof.
  intros Hp Ha Hd. apply pair_eta in Hp. rewrite parseRequestBody_world in Hp.
  apply pair_eta in Hd.
  assert (Hh : handler event w = withSession driver (dispatch body) (snd (getDriver w))).
  { unfold handler. rewrite (bind_run _ _ _ _ _ Hp), Ha. cbn [negb].
    erewrite bind_run.
    2:{ erewrite try_catch_run; [|erewrite bind_run; [|exact Hd]; reflexivity].
        reflexivity. }
    reflexivity. }
  rewrite Hh. unfold withSession. rewrite bind_call. split.
  - now intros ->.
  - intros session -> Hdis. apply pair_eta in Hdis.
    erewrite try_catch_run.
    2:{ erewrite bind_run; [|exact Hdis]. reflexivity. }
    reflexivity.
Qed.

Lemma handler_failure_in_session_escapes_witness :
  fst (handler (event_of calc_input) token_refused_world)
  = Thrown (status_error 401).
Proof.
  destruct (handler_failure_in_session_escapes (event_of calc_input)
              token_refused_world calc_input a_driver (status_error 401))
    as [_ H]; [vm_compute; reflexivity|reflexivity|reflexivity|].
  rewrite (H VUndefined); [reflexivity|reflexivity|vm_compute; reflexivity].
Defined.

Lemma yields_ret {A} (Q : A -> Prop) a : Q a -> yields Q (ret a).
Proof. intros H w. exact H. Qed.

Lemma yields_throw {A} (Q : A -> Prop) e : yields Q (throw e).
Proof. intros w. exact I. Qed.

Lemma yields_bind {A B} (Q : B -> Prop) (m : M A) (k : A -> M B) :
  (forall a, yields Q (k a)) -> yields Q (bind m k).
Proof.
  intros Hk w. unfold bind. destruct (m w) as [[a|e] w1]; [apply Hk|exact I].
Qed.

Lemma yields_try_catch {A} (Q : A -> Prop) (m : M A) h :
  yields Q m -> (forall e, yields Q (h e)) -> yields Q (try_catch m h).
Proof.
  intros Hm Hh w. unfold try_catch. specialize (Hm w).
  destruct (m w) as [[a|e] w1]; [exact Hm|apply Hh].
Qed.

Lemma yields_withSession {A} (Q : A -> Prop) driver (callback : Session -> M A) :
  (forall s, yields Q (callback s)) -> yields Q (withSession driver callback).
Proof.
  intros H. unfold withSession. apply yields_bind. intros _.
  apply yields_try_catch.
  - intros w. unfold bind. specialize (H (mkSession driver) w).
    destruct (callback (mkSession driver) w) as [[a|e] w1]; [exact H|exact I].
  - intros e. apply yields_bind. intros _. apply yields_throw.
Qed.

(** X19.  [pdfHandler] always returns a response, whatever fails, and
    its status is 200, 400, 404 or 500. *)
Theorem pdfHandler_always_responds event w :
  exists response,
    fst (pdfHandler event w) = Returned response /\
    In (statusCode response) pdf_statuses.
Proof.
  unfold pdfHandler.
  match goal with
  | |- context [try_catch ?m ?h] =>
      assert (Y : yields (fun r => In (statusCode r) pdf_statuses) m)
  end.
  { destruct (negb _).
    - apply yields_ret. cbn. auto.
    - apply yields_bind. intros driver. apply yields_withSession. intros s.
      apply yields_bind. intros token. apply yields_bind. intros data.
      apply yields_bind. intros pdf. destruct (negb (to_boolean pdf)).
      + apply yields_ret. cbn. auto.
      + apply yields_bind. intros h. apply yields_bind. intros pdfData.
        apply yields_ret. cbn. auto. }
  unfold try_catch. specialize (Y w).
  match goal with
  | |- context [match ?m w with _ => _ end] => destruct (m w) as [[r|e] w1]
  end.
  - exists r. split; [reflexivity|exact Y].
  - eexists. split; [reflexivity|]. cbn. auto.
Qed.

(** X20.  When the path of the event gives no policy number,
    [pdfHandler] answers 400 "Policy number is required" without any
    external call. *)
Theorem pdfHandler_requires_policy_number event w :
  policy_number_of event = EmptyString ->
  pdfHandler event w
  = (Returned (json_response 400 (VObj [("error", VStr "Policy number is required")])),
     w).
Proof.
  unfold policy_number_of. intros H. unfold pdfHandler, try_catch.
  rewrite H. reflexivity.
Qed.

Lemma pdfHandler_requires_policy_number_witness :
  pdfHandler folder_event quote_world
  = (Returned (json_response 400 (VObj [("error", VStr "Policy number is required")])),
     quote_world).
Proof.
  apply (pdfHandler_requires_policy_number folder_event quote_world).
  reflexivity.
Defined.

(** X21.  A pdf request without a truthy [policy] is answered 400
    "policy missing" by [handlePdf] without any external call. *)
Theorem handlePdf_policy_missing session token body w :
  non_nullish body = true ->
  to_boolean (get_opt body "policy") = false ->
  handlePdf session token body w
  = (Returned (json_response 400 (VObj [("error", VStr "policy missing")])), w).
Proof.
  intros Hb Hp. unfold handlePdf.
  rewrite bind_lift, (get_non_nullish _ _ Hb), Hp. reflexivity.
Qed.

Lemma handlePdf_policy_missing_witness :
  handlePdf a_session (VStr "vsk") (VObj [("action", VStr "pdf")]) quote_world
  = (Returned (json_response 400 (VObj [("error", VStr "policy missing")])),
     quote_world).
Proof.
  apply (handlePdf_policy_missing a_session (VStr "vsk")
           (VObj [("action", VStr "pdf")]) quote_world); reflexivity.
Defined.

(** X22.  When the document is fetched, [handlePdf] returns status 200,
    the base64 text of the document, the PDF content type and an
    attachment named after the policy; the request goes to
    [api.vsk.ru/v3], not to the sales API, and carries no timeout. *)
Theorem handlePdf_document session token body w document :
  non_nullish body = true ->
  to_boolean (get_opt body "policy") = true ->
  next_reply w 0 = Ok (VBuffer document) ->
  exists fetch,
    handlePdf session token body w
    = (Returned
         (mkResponse 200
            (Some [("Content-Type", "application/pdf");
                   ("Content-Disposition",
                    ("attachment; filename="
                       ++ String dquote (to_string (get_opt body "policy"))
                       ++ ".pdf" ++ String dquote EmptyString)%string)])
            (VStr (base64 document)) (Some true)),
       extend [(fetch, Ok (VBuffer document))] w)
    /\ exists r, fetch = Http r /\
                 url r = ("https://api.vsk.ru/v3/accident/policies/"
                            ++ to_string (get_opt body "policy") ++ "/pdf")%string
                 /\ timeout r = None.
Proof.
  intros Hb Hp H0. eexists. unfold handlePdf.
  rewrite bind_lift, (get_non_nullish _ _ Hb), Hp. cbn [negb].
  split.
  - erewrite try_catch_run; [|rewrite bind_call, H0; reflexivity]. reflexivity.
  - eexists. repeat split.
Qed.

Lemma handlePdf_document_witness :
  exists fetch,
    handlePdf a_session (VStr "vsk") pdf_request document_world
    = (Returned
         (mkResponse 200
            (Some [("Content-Type", "application/pdf");
                   ("Content-Disposition",
                    ("attachment; filename=" ++ String dquote "P-1"
                       ++ ".pdf" ++ String dquote EmptyString)%string)])
            (VStr "TWFu") (Some true)),
       extend [(fetch, Ok (VBuffer "Man"))] document_world).
Proof.
  destruct (handlePdf_document a_session (VStr "vsk") pdf_request document_world
              "Man" eq_refl eq_refl eq_refl) as (fetch & H & _).
  exists fetch. exact H.
Defined.

Lemma quiet_buildAccidentRequest P input : quiet P (buildAccidentRequest input).
Proof.
  unfold buildAccidentRequest.
  apply quiet_bind; [apply (quiet_pure P (fun w => Returned (tz_offset_ms w)))|].
  intros tz.
  apply quiet_bind; [apply (quiet_pure P (fun w => Returned (now_of w)))|].
  intros now. apply quiet_lift.
Qed.

Lemma quiet_handleCreatePolicy session token params :
  quiet not_query (handleCreatePolicy session token params).
Proof.
  unfold handleCreatePolicy.
  apply quiet_bind; [apply quiet_buildAccidentRequest|]. intros req.
  apply quiet_bind; [apply quiet_call; reflexivity|]. intros policy.
  repeat (apply quiet_bind; [apply quiet_lift|]; intros ?).
  apply quiet_ret.
Qed.

(** X23.  [handleSample] never executes a query and leaves the database
    as it was. *)
Theorem handleSample_stores_no_record session token params w :
  db (snd (handleSample session token params w)) = db w /\
  exists evs,
    trace (snd (handleSample session token params w)) = trace w ++ evs /\
    no_query evs.
Proof.
  assert (Q : quiet not_query (handleSample session token params)).
  { unfold handleSample.
    apply quiet_bind; [apply quiet_handleCreatePolicy|]. intros policyData.
    repeat (apply quiet_bind; [apply quiet_lift|]; intros ?).
    apply quiet_bind; [apply quiet_call; reflexivity|]. intros pdfData.
    apply quiet_bind; [apply quiet_lift|]. intros pdf.
    destruct (negb (to_boolean pdf)); [apply quiet_throw|].
    apply quiet_bind; [apply (quiet_pure _ (fun w => Returned (host w)))|].
    intros h.
    apply quiet_bind; [apply quiet_lift|]. intros content.
    apply quiet_bind; [apply quiet_call; reflexivity|]. intros _.
    apply quiet_bind; [apply quiet_call; reflexivity|]. intros signedUrl.
    apply quiet_bind; [apply (quiet_pure _ (fun w => Returned (now_of w)))|].
    intros now. apply quiet_ret. }
  destruct (Q w) as (D & evs & T & F). split; [exact D|].
  exists evs. split; [exact T|].
  unfold no_query. eapply Forall_impl; [|exact F].
  intros ev H. unfold not_query in H. now apply negb_true_iff in H.
Qed.

(** X24.  When the partner returns no [policyPDF], [handleSample] throws
    after the policy has been created and the document requested, and
    before any call to the object storage. *)
Theorem handleSample_without_document session token params w req policy pdfData :
  fst (buildAccidentRequest params w) = Returned req ->
  next_reply w 0 = Ok policy ->
  non_nullish policy = true ->
  next_reply w 1 = Ok pdfData ->
  non_nullish pdfData = true ->
  to_boolean (get_opt pdfData "policyPDF") = false ->
  handleSample session token params w
  = (Thrown (new_Error "PDF не найден в ответе ВСК"),
     extend [(policy_call token req, Ok policy);
             (document_call token (get_opt policy "policyNumber"), Ok pdfData)] w).
Proof.
  intros Hreq H0 Np H1 Nd Hpdf.
  assert (Hb : buildAccidentRequest_at (tz_offset_ms w) (now_of w) params
               = Returned req).
  { revert Hreq. unfold buildAccidentRequest, bind, the_tz, Date_now, lift, now_of.
    now destruct (buildAccidentRequest_at _ _ params). }
  assert (Hc : handleCreatePolicy session token params w
               = (Returned (VObj [("policyNumber", get_opt policy "policyNumber");
                                  ("premium", get_opt policy "premium");
                                  ("draftId", get_opt policy "draftId")]),
                  extend [(policy_call token req, Ok policy)] w)).
  { unfold handleCreatePolicy. rewrite bind_buildAccidentRequest, Hb.
    rewrite bind_call, H0. rewrite !bind_lift, !(get_non_nullish _ _ Np).
    reflexivity. }
  unfold handleSample. rewrite (bind_run _ _ _ _ _ Hc).
  set (policyData := VObj _).
  assert (G1 : get policyData "policyNumber"
               = Returned (get_opt policy "policyNumber")) by reflexivity.
  assert (G2 : get policyData "premium"
               = Returned (get_opt policy "premium")) by reflexivity.
  rewrite bind_lift, G1, bind_lift, G2.
  rewrite bind_call, next_reply_extend. cbn [List.length Nat.add].
  rewrite H1, bind_lift, (get_non_nullish _ _ Nd), Hpdf. cbn [negb].
  unfold throw. now rewrite extend_extend.
Qed.

Lemma handleSample_without_document_witness :
  handleSample a_session (VStr "vsk") calc_input no_document_world
  = (Thrown (new_Error "PDF не найден в ответе ВСК"),
     extend [(policy_call (VStr "vsk") calc_request, Ok issued_policy);
             (document_call (VStr "vsk") (VStr "P-1"), Ok (VObj []))]
            no_document_world).
Proof.
  apply (handleSample_without_document a_session (VStr "vsk") calc_input
           no_document_world calc_request issued_policy (VObj []));
    reflexivity.
Defined.

(** X25.  When the quote carries no [insuredObject], [handleCalc] fails
    with a TypeError after the record of the quote has been stored. *)
Theorem handleCalc_stored_then_failed
        session token params w req data premium object stored :
  fst (buildAccidentRequest params w) = Returned req ->
  next_reply w 0 = Ok data ->
  get data "premium" = Returned premium ->
  next_reply w 1 = Ok stored ->
  get data "insuredObject" = Returned object ->
  non_nullish object = false ->
  exists row e w',
    handleCalc session token params w = (Thrown e, w') /\
    err_name e = "TypeError" /\
    db w' = upsert row (db w) /\
    row_table row = "insurance_calculations" /\
    param "$respData" (row_values row) = Some (TvUtf8 (JSON_stringify data)).
Proof.
  intros Hreq H0 Hp H1 Ho Hn.
  assert (Hb : buildAccidentRequest_at (tz_offset_ms w) (now_of w) params
               = Returned req).
  { revert Hreq. unfold buildAccidentRequest, bind, the_tz, Date_now, lift, now_of.
    now destruct (buildAccidentRequest_at _ _ params). }
  rewrite handleCalc_unfold. unfold handleCalc_run.
  rewrite Hb, H0, Hp, H1. cbv zeta.
  assert (Hd : get data "draftId" = Returned (get_opt data "draftId")).
  { apply get_non_nullish. exact (get_returned_non_nullish _ _ _ Hp). }
  unfold calc_response. rewrite Hp, Hd, Ho. cbn [bindR].
  destruct (get object "covers") as [c|e] eqn:G.
  { apply get_returned_non_nullish in G. congruence. }
  cbn [bindR].
  eexists (mkRow _ _ _), e. eexists. split; [reflexivity|].
  split; [exact (get_throws_TypeError _ _ _ G)|].
  repeat split.
Qed.

Lemma handleCalc_stored_then_failed_witness :
  exists row e w',
    handleCalc a_session (VStr "vsk") calc_input bare_quote_world = (Thrown e, w') /\
    err_name e = "TypeError" /\
    db w' = upsert row (db bare_quote_world) /\
    row_table row = "insurance_calculations" /\
    param "$respData" (row_values row) = Some (TvUtf8 (JSON_stringify bare_quote)).
Proof.
  apply (handleCalc_stored_then_failed a_session (VStr "vsk") calc_input
           bare_quote_world calc_request bare_quote (num 1200) VUndefined
           VUndefined); reflexivity.
Defined.

(** X26.  When the payment call fails, [handlePay] throws its error
    after the policy has been created and stores nothing; the payment
    URL is built from the [policyNumber] of the policy as it is, also
    when it is [undefined]. *)
Theorem handlePay_payment_failure
        session token params w req policy e :
  fst (buildAccidentRequest params w) = Returned req ->
  next_reply w 0 = Ok policy ->
  non_nullish policy = true ->
  next_reply w 1 = Fail e ->
  exists payBody,
    handlePay session token params w
    = (Thrown e,
       extend [(policy_call token req, Ok policy);
               (partner_call "PUT"
                  (policies_url ++ "/" ++ to_string (get_opt policy "policyNumber")
                     ++ "/installments/1")
                  (JsonBody payBody) token, Fail e)] w)
    /\ get_opt payBody "amount" = get_opt policy "premium"
    /\ get_opt payBody "paymentType" = VStr "CARD".
Proof.
  intros Hreq H0 Np H1.
  assert (Hb : buildAccidentRequest_at (tz_offset_ms w) (now_of w) params
               = Returned req).
  { revert Hreq. unfold buildAccidentRequest, bind, the_tz, Date_now, lift, now_of.
    now destruct (buildAccidentRequest_at _ _ params). }
  assert (Nparams : non_nullish params = true).
  { revert Hb. unfold buildAccidentRequest_at. cbv zeta.
    destruct (get params "product") eqn:G; cbn [bindR]; [|discriminate].
    intros _. exact (get_returned_non_nullish _ _ _ G). }
  rewrite handlePay_unfold. unfold handlePay_run. rewrite Hb, H0.
  unfold pay_request. rewrite !(get_non_nullish _ _ Np), !(get_non_nullish _ _ Nparams).
  cbn [bindR]. rewrite H1. cbv zeta.
  eexists. split.
  - rewrite extend_extend. reflexivity.
  - split; reflexivity.
Qed.

Lemma handlePay_payment_failure_witness :
  exists payBody,
    handlePay a_session (VStr "vsk") calc_input payment_refused_world
    = (Thrown (status_error 404),
       extend [(policy_call (VStr "vsk") calc_request, Ok numberless_policy);
               (partner_call "PUT"
                  (policies_url ++ "/undefined/installments/1")
                  (JsonBody payBody) (VStr "vsk"), Fail (status_error 404))]
              payment_refused_world)
    /\ get_opt payBody "amount" = num 1200.
Proof.
  destruct (handlePay_payment_failure a_session (VStr "vsk") calc_input
              payment_refused_world calc_request numberless_policy
              (status_error 404) eq_refl eq_refl eq_refl eq_refl)
    as (payBody & H1 & H2 & _).
  exists payBody. split; [exact H1|exact H2].
Defined.

(** ** The set-up before the dispatch *)






